(** * KubeLiteDB controller: the reconciliation loop of [controller.go]

    A shallow embedding of the SQLiteInstance controller.  The controller is
    written against client-go: a rate-limited work queue, a lister over the
    informer cache, a typed clientset, an event recorder and the runtime's
    error sink.  Every call into one of those collaborators is an effect: it
    is appended to a trace, and what the collaborator answers is given by an
    environment that may look at the whole world reached so far.  Go pointers
    to SQLiteInstance objects are locations of a heap, so that the object
    held by the informer cache and the copy handed to the API server are
    distinct objects. *)

From Stdlib Require Import ZArith Lia.
From stdpp Require Import base option list strings countable pretty gmap.

Local Open Scope Z_scope.
Local Open Scope string_scope.
Local Open Scope list_scope.

(** ** pkg/apis/kubelitedb/v1/types.go *)

Module v1.

(** The two embedded metav1 structs, with the fields the controller and
    its collaborators read. *)
Record TypeMeta := mkTypeMeta {
  Kind : string;
  APIVersion : string
}.

Record ObjectMeta := mkObjectMeta {
  Name : string;
  Namespace : string;
  ResourceVersion : string;
  Generation : Z;
  Labels : list (string * string)
}.

Record SQLiteInstanceSpec := mkSpec {
  DbName : string;
  Storage : string;
  Replicas : Z
}.

Record SQLiteInstanceStatus := mkStatus {
  Phase : string
}.

Record SQLiteInstance := mkSQLiteInstance {
  typeMeta : TypeMeta;
  objectMeta : ObjectMeta;
  Spec : SQLiteInstanceSpec;
  Status : SQLiteInstanceStatus
}.

(** Go's zero value, what [&SQLiteInstance{}] holds. *)
Definition zero : SQLiteInstance :=
  mkSQLiteInstance (mkTypeMeta "" "") (mkObjectMeta "" "" "" 0 [])
                   (mkSpec "" "" 0) (mkStatus "").

(** The assignment [o.Status.Phase = p]. *)
Definition set_Status_Phase (p : string) (o : SQLiteInstance) : SQLiteInstance :=
  mkSQLiteInstance (typeMeta o) (objectMeta o) (Spec o) (mkStatus p).

End v1.

#[global] Instance SQLiteInstance_inhabited : Inhabited v1.SQLiteInstance :=
  populate v1.zero.

(** ** Values, errors and effects *)

(** A pointer to a SQLiteInstance. *)
Definition loc := nat.

(** What travels as [interface{}]: work-queue items, handler payloads and
    the key/value pairs of a log line. *)
Inductive Any :=
| AString (s : string)
| AInt (z : Z)
| APtr (p : loc)
| ANil.

#[global] Instance Any_eq_dec : EqDecision Any.
Proof. solve_decision. Defined.

#[global] Instance Any_countable : Countable Any.
Proof.
  refine (inj_countable'
            (fun a => match a with
                      | AString s => inl s
                      | AInt z => inr (inl z)
                      | APtr p => inr (inr (Some p))
                      | ANil => inr (inr None)
                      end)
            (fun c => match c with
                      | inl s => AString s
                      | inr (inl z) => AInt z
                      | inr (inr (Some p)) => APtr p
                      | inr (inr None) => ANil
                      end) _).
  intros []; reflexivity.
Defined.

(** A Go [error]: its [Error()] text and whether apimachinery's
    [errors.IsNotFound] holds of it. *)
Module errors.
Record error := mkError {
  Error : string;
  IsNotFound : bool
}.
End errors.
Abbreviation error := errors.error.

(** [fmt.Errorf] builds a plain error, which is no API status error. *)
Definition fmt_Errorf (msg : string) : error := errors.mkError msg false.

(** The verbs of the generated typed client for SQLiteInstances. *)
Inductive Verb := VCreate | VUpdate | VUpdateStatus | VDelete | VPatch.

#[global] Instance Verb_eq_dec : EqDecision Verb.
Proof. solve_decision. Defined.

(** One call into a collaborator, with what it answered. *)
Inductive Event :=
| EGet (obj : Any) (shutdown : bool)
| EAdd (obj : Any)
| EAddRateLimited (obj : Any)
| EForget (obj : Any)
| EDone (obj : Any)
| EShutDown
| EHandleError (err : error)
| ELogInfo (msg : string) (keysAndValues : list Any)
| EListerGet (namespace name : string) (res : loc + error)
| EClientset (verb : Verb) (namespace : string) (ptr : loc)
             (obj : v1.SQLiteInstance) (res : option error)
| ERecorderEvent (ptr : loc) (eventtype reason message : string)
| EWaitForCacheSync (ok : bool)
| EGo (i : Z)
| ECtxDone.

(** The world the controller runs in: the Go heap of SQLiteInstance
    objects, the retry bookkeeping of the rate limiter, and the trace of
    calls made so far, oldest first. *)
Record World := mkWorld {
  heap : gmap loc v1.SQLiteInstance;
  failures : gmap Any nat;
  trace : list Event
}.

Definition record_event (e : Event) (w : World) : World :=
  mkWorld (heap w) (failures w) (trace w ++ [e]).

Definition set_heap (h : gmap loc v1.SQLiteInstance) (w : World) : World :=
  mkWorld h (failures w) (trace w).

Definition set_failures (f : gmap Any nat) (w : World) : World :=
  mkWorld (heap w) f (trace w).

(** The events appended to the trace between [w] and a later world [w']. *)
Definition events_since (w w' : World) : list Event :=
  drop (length (trace w)) (trace w').

(** The collaborators the controller is constructed with.  Each answer may
    depend on everything that happened before the call. *)
Record Env := mkEnv {
  (* workqueue.Get: the next item, or that the queue is shutting down *)
  env_Get : World -> Any * bool;
  (* cache.SplitMetaNamespaceKey *)
  SplitMetaNamespaceKey : string -> (string * string) + error;
  (* cache.MetaNamespaceKeyFunc *)
  MetaNamespaceKeyFunc : World -> Any -> string + error;
  (* sqliteInstancesLister.SQLiteInstances(namespace).Get(name) *)
  env_listerGet : World -> string -> string -> loc + error;
  (* the error of KubelitedbV1().SQLiteInstances(namespace).UpdateStatus *)
  env_UpdateStatus : World -> string -> v1.SQLiteInstance -> option error;
  (* cache.WaitForCacheSync(ctx.Done(), c.sqliteInstancesSynced) *)
  env_WaitForCacheSync : World -> bool;
  (* fmt's %#v rendering *)
  GoSyntax : Any -> string;
  (* the per-item exponential limiter's base and maximum delay *)
  baseDelay : Z;
  maxDelay : Z
}.

(** ** The monad of controller code: state passing over the world *)

Definition M (A : Type) : Type := World -> A * World.

#[global] Instance M_ret : MRet M := fun A a w => (a, w).
#[global] Instance M_bind : MBind M :=
  fun A B f m w => let '(a, w') := m w in f a w'.

Definition emit (e : Event) : M unit := fun w => (tt, record_event e w).

(** [defer d] before [body]: [d] runs when [body] returns, whatever path
    [body] took, and the result of [body] is the result of the whole. *)
Definition defer {A} (d : M unit) (body : M A) : M A :=
  r ← body; d;; mret r.

(** ** The rate-limited work queue, as the controller uses it *)

Module workqueue.

(** Modelled from the spec: the work queue's rate limiter is client-go
    code outside this repository.  It keeps a failure count per item;
    the delay before attempt [exp] is the base delay doubled [exp] times,
    capped at the maximum. *)
Definition backoff (base max : Z) (exp : nat) : Z :=
  Z.min (base * 2 ^ Z.of_nat exp) max.

Definition NumRequeues (w : World) (item : Any) : nat :=
  default 0%nat (failures w !! item).

(** The delay the limiter would hand out for [item] now. *)
Definition nextDelay (env : Env) (w : World) (item : Any) : Z :=
  backoff (baseDelay env) (maxDelay env) (NumRequeues w item).

Definition Get (env : Env) : M (Any * bool) :=
  fun w => let r := env_Get env w in (r, record_event (EGet r.1 r.2) w).

Definition Add (item : Any) : M unit := emit (EAdd item).

(** Modelled from the spec: [AddRateLimited] re-enqueues after the
    backoff delay and counts one more failure for the item. *)
Definition AddRateLimited (item : Any) : M unit :=
  fun w =>
    (tt, record_event (EAddRateLimited item)
           (set_failures (<[item := S (NumRequeues w item)]> (failures w)) w)).

(** Modelled from the spec: [Forget] resets the backoff counter. *)
Definition Forget (item : Any) : M unit :=
  fun w =>
    (tt, record_event (EForget item)
           (set_failures (delete item (failures w)) w)).

Definition Done (item : Any) : M unit := emit (EDone item).

Definition ShutDown : M unit := emit EShutDown.

End workqueue.

(** ** The remaining collaborators *)

(** [utilruntime.HandleError]: the runtime's error sink. *)
Definition HandleError (err : error) : M unit := emit (EHandleError err).

(** [logger.Info] of klog. *)
Definition logger_Info (msg : string) (keysAndValues : list Any) : M unit :=
  emit (ELogInfo msg keysAndValues).

(** [c.recorder.Event]. *)
Definition recorder_Event (object : loc) (eventtype reason message : string) : M unit :=
  emit (ERecorderEvent object eventtype reason message).

(** Reading through a pointer.  The lister's contract is that a nil error
    comes with a pointer to an object; a pointer to nothing reads as the
    zero value. *)
Definition load (p : loc) : M v1.SQLiteInstance :=
  fun w => (heap w !!! p, w).

(** The assignment [p.Status.Phase = phase], a write through the pointer. *)
Definition store_Status_Phase (p : loc) (phase : string) : M unit :=
  fun w => (tt, set_heap (<[p := v1.set_Status_Phase phase (heap w !!! p)]> (heap w)) w).

(** Modelled from the spec: [DeepCopy] is generated code
    (zz_generated.deepcopy.go) that is not among the sources.  It allocates
    a new object, different from every object there is, that holds a copy
    of every field of the receiver. *)
Definition DeepCopy (p : loc) : M loc :=
  fun w =>
    let q := fresh ({[p]} ∪ dom (heap w)) in
    (q, set_heap (<[q := heap w !!! p]> (heap w)) w).

(** ** controller.go *)

Definition controllerAgentName : string := "kubelitedb-controller".
Definition SuccessSynced : string := "Synced".
Definition ErrResourceExists : string := "ErrResourceExists".
Definition MessageResourceExists : string :=
  "Resource %q already exists and is not managed by SQLiteInstance".
Definition MessageResourceSynced : string := "SQLiteInstance synced successfully".

(** [corev1.EventTypeNormal]. *)
Definition EventTypeNormal : string := "Normal".

Section Controller.

Context (env : Env).

(** [c.sqliteInstancesLister.SQLiteInstances(namespace).Get(name)] *)
Definition lister_Get (namespace name : string) : M (loc + error) :=
  fun w =>
    let r := env_listerGet env w namespace name in
    (r, record_event (EListerGet namespace name r) w).

(** [c.kubelitedbclientset.KubelitedbV1().SQLiteInstances(namespace).UpdateStatus];
    the object it returns is discarded by the caller. *)
Definition clientset_UpdateStatus (namespace : string) (p : loc) : M (option error) :=
  fun w =>
    let o := heap w !!! p in
    let r := env_UpdateStatus env w namespace o in
    (r, record_event (EClientset VUpdateStatus namespace p o r) w).

Definition updateSQLiteInstanceStatus (sqliteInstance : loc) : M (option error) :=
  sqliteInstanceCopy ← DeepCopy sqliteInstance;
  store_Status_Phase sqliteInstanceCopy "Running";;
  o ← load sqliteInstance;
  clientset_UpdateStatus (v1.Namespace (v1.objectMeta o)) sqliteInstanceCopy.

Definition syncHandler (key : string) : M (option error) :=
  match SplitMetaNamespaceKey env key with
  | inr _ =>
      HandleError (fmt_Errorf ("invalid resource key: " +:+ key));;
      mret None
  | inl (namespace, name) =>
      r ← lister_Get namespace name;
      match r with
      | inr err =>
          if errors.IsNotFound err then
            HandleError (fmt_Errorf ("sqliteinstance '" +:+ key +:+
                                     "' in work queue no longer exists"));;
            mret None
          else mret (Some err)
      | inl sqliteInstance =>
          e ← updateSQLiteInstanceStatus sqliteInstance;
          match e with
          | Some err => mret (Some err)
          | None =>
              recorder_Event sqliteInstance EventTypeNormal
                             SuccessSynced MessageResourceSynced;;
              mret None
          end
      end
  end.

(** The function literal of [processNextWorkItem], whose first statement
    defers [c.workqueue.Done(obj)]. *)
Definition processItem (obj : Any) : M (option error) :=
  defer (workqueue.Done obj)
    (match obj with
     | AString key =>
         r ← syncHandler key;
         match r with
         | Some err =>
             workqueue.AddRateLimited (AString key);;
             mret (Some (fmt_Errorf ("error syncing '" +:+ key +:+ "': " +:+
                                     errors.Error err +:+ ", requeuing")))
         | None =>
             workqueue.Forget obj;;
             logger_Info "Successfully synced" [AString "resourceName"; AString key];;
             mret None
         end
     | _ =>
         workqueue.Forget obj;;
         HandleError (fmt_Errorf ("expected string in workqueue but got " +:+
                                  GoSyntax env obj));;
         mret None
     end).

Definition processNextWorkItem : M bool :=
  '(obj, shutdown) ← workqueue.Get env;
  if shutdown : bool then mret false
  else
    err ← processItem obj;
    match err with
    | Some e => HandleError e;; mret true
    | None => mret true
    end.

(** [for c.processNextWorkItem(ctx) {}], run for at most [fuel] rounds.
    The result says whether the loop was left. *)
Fixpoint runWorker (fuel : nat) : M bool :=
  match fuel with
  | O => mret false
  | S fuel' =>
      continue ← processNextWorkItem;
      if continue : bool then runWorker fuel' else mret true
  end.

(** [for i := 0; i < workers; i++ { go wait.UntilWithContext(...) }],
    from [i] with [n] rounds to go. *)
Fixpoint launchWorkers (i : Z) (n : nat) : M unit :=
  match n with
  | O => mret tt
  | S n' => emit (EGo i);; launchWorkers (i + 1) n'
  end.

(** [utilruntime.HandleCrash] does nothing when there is no panic. *)
Definition HandleCrash : M unit := mret tt.

Definition Run (workers : Z) : M (option error) :=
  defer HandleCrash
    (defer workqueue.ShutDown
       (logger_Info "Starting KubeLiteDB controller" [];;
        logger_Info "Waiting for informer caches to sync" [];;
        ok ← (fun w => let b := env_WaitForCacheSync env w in
                       (b, record_event (EWaitForCacheSync b) w));
        if ok : bool then
          logger_Info "Starting workers" [AString "count"; AInt workers];;
          launchWorkers 0 (Z.to_nat workers);;
          logger_Info "Started workers" [];;
          emit ECtxDone;;
          logger_Info "Shutting down workers" [];;
          mret None
        else mret (Some (fmt_Errorf "failed to wait for caches to sync")))).

Definition enqueueSQLiteInstance (obj : Any) : M unit :=
  fun w =>
    match MetaNamespaceKeyFunc env w obj with
    | inr err => HandleError err w
    | inl key => workqueue.Add (AString key) w
    end.

(** [cache.ResourceEventHandlerFuncs] *)
Record ResourceEventHandlerFuncs := mkHandlers {
  AddFunc : Any -> M unit;
  UpdateFunc : Any -> Any -> M unit;
  DeleteFunc : Any -> M unit
}.

(** The handlers [NewController] registers with the informer. *)
Definition NewController_handlers : ResourceEventHandlerFuncs :=
  {| AddFunc := enqueueSQLiteInstance;
     UpdateFunc := fun old new => enqueueSQLiteInstance new;
     DeleteFunc := enqueueSQLiteInstance |}.

(** What the informer's change feed delivers. *)
Inductive Notification :=
| Added (obj : Any)
| Updated (old new : Any)
| Deleted (obj : Any).

Definition OnNotification (h : ResourceEventHandlerFuncs) (n : Notification) : M unit :=
  match n with
  | Added obj => AddFunc h obj
  | Updated old new => UpdateFunc h old new
  | Deleted obj => DeleteFunc h obj
  end.

(** The informer calls the handlers one notification after the other. *)
Fixpoint deliver (h : ResourceEventHandlerFuncs) (ns : list Notification) : M unit :=
  match ns with
  | [] => mret tt
  | n :: ns' => OnNotification h n;; deliver h ns'
  end.

End Controller.

(** ** Reading a trace *)

(** How many events of a trace satisfy [f]. *)
Definition count_events (f : Event -> bool) (evs : list Event) : nat :=
  length (filter f evs).

(** A call of the typed client, whatever the verb. *)
Definition is_clientset_call (e : Event) : bool :=
  match e with EClientset _ _ _ _ _ => true | _ => false end.

(** A call that puts an item on the queue: [Add] or [AddRateLimited]. *)
Definition is_requeue (e : Event) : bool :=
  match e with EAdd _ | EAddRateLimited _ => true | _ => false end.

(** Any call into the work queue. *)
Definition is_queue_call (e : Event) : bool :=
  match e with
  | EGet _ _ | EAdd _ | EAddRateLimited _ | EForget _ | EDone _ | EShutDown => true
  | _ => false
  end.

Definition is_Forget (e : Event) : bool :=
  match e with EForget _ => true | _ => false end.

Definition is_Done (e : Event) : bool :=
  match e with EDone _ => true | _ => false end.

Definition is_Get (e : Event) : bool :=
  match e with EGet _ _ => true | _ => false end.

Definition is_shutdown_Get (e : Event) : bool :=
  match e with EGet _ true => true | _ => false end.

Definition is_Go (e : Event) : bool :=
  match e with EGo _ => true | _ => false end.

Definition is_WaitForCacheSync (e : Event) : bool :=
  match e with EWaitForCacheSync _ => true | _ => false end.

Definition is_lister_call (e : Event) : bool :=
  match e with EListerGet _ _ _ => true | _ => false end.

Definition is_recorder_call (e : Event) : bool :=
  match e with ERecorderEvent _ _ _ _ => true | _ => false end.

(** The handlers' two outcomes: the key was enqueued, or the error was reported. *)
Definition is_Add_or_HandleError (e : Event) : bool :=
  match e with EAdd _ | EHandleError _ => true | _ => false end.

(** The phases the status updates of a trace carry, oldest first. *)
Definition written_phases (evs : list Event) : list string :=
  omap (fun e => match e with
                 | EClientset VUpdateStatus _ _ o _ => Some (v1.Phase (v1.Status o))
                 | _ => None
                 end) evs.

(** The state machine of the specification's section 4.4, word for word:
    Unknown, then Pending, then Running. *)
Definition spec_phase_step (from to : string) : bool :=
  (bool_decide (from = "Unknown") && bool_decide (to = "Pending"))
  || (bool_decide (from = "Pending") && bool_decide (to = "Running")).

(** ** What one status update does to the heap *)

(** The address [DeepCopy] hands out for a copy of the object at [p]. *)
Definition copy_of (w : World) (p : loc) : loc :=
  fresh ({[p]} ∪ dom (heap w)).

(** The object at [p] with its phase replaced by Running. *)
Definition running_copy (w : World) (p : loc) : v1.SQLiteInstance :=
  v1.set_Status_Phase "Running" (heap w !!! p).

(** The heap once the copy of [p] exists and carries the new phase. *)
Definition heap_with_copy (w : World) (p : loc) : gmap loc v1.SQLiteInstance :=
  <[copy_of w p := running_copy w p]> (heap w).

(** The namespace read from the object at [p]. *)
Definition namespace_of (w : World) (p : loc) : string :=
  v1.Namespace (v1.objectMeta (heap w !!! p)).

(** The world in which the API server receives the status update that
    follows the lookup of [namespace]/[name], which found [p]. *)
Definition world_at_update (w : World) (namespace name : string) (p : loc) : World :=
  mkWorld (heap_with_copy w p) (failures w)
          (trace w ++ [EListerGet namespace name (inl p)]).

(** The status update itself, with the answer [r] it got. *)
Definition status_update (w : World) (p : loc) (r : option error) : Event :=
  EClientset VUpdateStatus (namespace_of w p) (copy_of w p) (running_copy w p) r.

(** The error [processNextWorkItem] hands to the error sink when the sync
    of [key] failed with [err]. *)
Definition requeue_error (key : string) (err : error) : error :=
  fmt_Errorf ("error syncing '" +:+ key +:+ "': " +:+ errors.Error err +:+ ", requeuing").

(** The world in which [syncHandler] starts once [Get] has handed out an item. *)
Definition after_Get (env : Env) (w : World) : World :=
  (workqueue.Get env w).2.

(** The outcomes of [syncHandler env key w], one for each way through it. *)
Inductive sync_outcome (env : Env) (key : string) (w : World) :
  option error -> World -> Prop :=
| sync_malformed e :
    SplitMetaNamespaceKey env key = inr e ->
    sync_outcome env key w None
      (mkWorld (heap w) (failures w)
         (trace w ++ [EHandleError (fmt_Errorf ("invalid resource key: " +:+ key))]))
| sync_not_found namespace name err :
    SplitMetaNamespaceKey env key = inl (namespace, name) ->
    env_listerGet env w namespace name = inr err ->
    errors.IsNotFound err = true ->
    sync_outcome env key w None
      (mkWorld (heap w) (failures w)
         (trace w ++ [EListerGet namespace name (inr err);
                      EHandleError (fmt_Errorf ("sqliteinstance '" +:+ key +:+
                                                "' in work queue no longer exists"))]))
| sync_lookup_error namespace name err :
    SplitMetaNamespaceKey env key = inl (namespace, name) ->
    env_listerGet env w namespace name = inr err ->
    errors.IsNotFound err = false ->
    sync_outcome env key w (Some err)
      (mkWorld (heap w) (failures w)
         (trace w ++ [EListerGet namespace name (inr err)]))
| sync_update_error namespace name p err :
    SplitMetaNamespaceKey env key = inl (namespace, name) ->
    env_listerGet env w namespace name = inl p ->
    env_UpdateStatus env (world_at_update w namespace name p)
                     (namespace_of w p) (running_copy w p) = Some err ->
    sync_outcome env key w (Some err)
      (mkWorld (heap_with_copy w p) (failures w)
         (trace w ++ [EListerGet namespace name (inl p);
                      status_update w p (Some err)]))
| sync_synced namespace name p :
    SplitMetaNamespaceKey env key = inl (namespace, name) ->
    env_listerGet env w namespace name = inl p ->
    env_UpdateStatus env (world_at_update w namespace name p)
                     (namespace_of w p) (running_copy w p) = None ->
    sync_outcome env key w None
      (mkWorld (heap_with_copy w p) (failures w)
         (trace w ++ [EListerGet namespace name (inl p);
                      status_update w p None;
                      ERecorderEvent p EventTypeNormal SuccessSynced
                                     MessageResourceSynced])).

(** The outcomes of [processNextWorkItem env w]: the result and the world
    it leaves, one for each way through it. *)
Inductive pass_outcome (env : Env) (w : World) : bool -> World -> Prop :=
| pass_shutdown obj :
    env_Get env w = (obj, true) ->
    pass_outcome env w false
      (mkWorld (heap w) (failures w) (trace w ++ [EGet obj true]))
| pass_not_string obj :
    env_Get env w = (obj, false) ->
    (forall key, obj <> AString key) ->
    pass_outcome env w true
      (mkWorld (heap w) (delete obj (failures w))
         (trace w ++ [EGet obj false; EForget obj;
                      EHandleError (fmt_Errorf ("expected string in workqueue but got " +:+
                                                GoSyntax env obj));
                      EDone obj]))
| pass_sync_ok key w2 :
    env_Get env w = (AString key, false) ->
    syncHandler env key (after_Get env w) = (None, w2) ->
    sync_outcome env key (after_Get env w) None w2 ->
    pass_outcome env w true
      (mkWorld (heap w2) (delete (AString key) (failures w2))
         (trace w2 ++ [EForget (AString key);
                       ELogInfo "Successfully synced"
                                [AString "resourceName"; AString key];
                       EDone (AString key)]))
| pass_sync_error key err w2 :
    env_Get env w = (AString key, false) ->
    syncHandler env key (after_Get env w) = (Some err, w2) ->
    sync_outcome env key (after_Get env w) (Some err) w2 ->
    pass_outcome env w true
      (mkWorld (heap w2)
         (<[AString key := S (workqueue.NumRequeues w2 (AString key))]> (failures w2))
         (trace w2 ++ [EAddRateLimited (AString key); EDone (AString key);
                       EHandleError (requeue_error key err)])).

(** The calls one pass of [processNextWorkItem] makes, and those of one
    call of [syncHandler]. *)
Definition pass_events (env : Env) (w : World) : list Event :=
  events_since w (processNextWorkItem env w).2.

Definition sync_events (env : Env) (key : string) (w : World) : list Event :=
  events_since w (syncHandler env key w).2.

(** The key cannot be split, or the lister answers that the object is not
    found. *)
Definition malformed_or_not_found (env : Env) (w : World) (key : string) : bool :=
  match SplitMetaNamespaceKey env key with
  | inr _ => true
  | inl (namespace, name) =>
      match env_listerGet env w namespace name with
      | inr err => errors.IsNotFound err
      | inl _ => false
      end
  end.

(** The objects the lister returned in a trace. *)
Definition found_objects (evs : list Event) : list loc :=
  omap (fun e => match e with
                 | EListerGet _ _ (inl p) => Some p
                 | _ => None
                 end) evs.

(** The phase transitions of one pass: from the phase the object has in
    the Resource Store when the pass starts, to each phase the pass writes. *)
Definition pass_transitions (env : Env) (w : World) : list (string * string) :=
  p ← found_objects (pass_events env w);
  to ← written_phases (pass_events env w);
  [(v1.Phase (v1.Status (heap w !!! p)), to)].

(** The world in which [Run] waits for the informer cache. *)
Definition world_at_wait (w : World) : World :=
  mkWorld (heap w) (failures w)
    (trace w ++ [ELogInfo "Starting KubeLiteDB controller" [];
                 ELogInfo "Waiting for informer caches to sync" []]).

(** The launches of [n] workers, numbered from [i]. *)
Fixpoint launched (i : Z) (n : nat) : list Event :=
  match n with
  | O => []
  | S n' => EGo i :: launched (i + 1) n'
  end.

(** The calls one [Run] makes. *)
Definition Run_events (env : Env) (workers : Z) (w : World) : list Event :=
  events_since w (Run env workers w).2.

(** ** Further readings of a trace *)

Definition is_HandleError (e : Event) : bool :=
  match e with EHandleError _ => true | _ => false end.

Definition is_LogInfo (e : Event) : bool :=
  match e with ELogInfo _ _ => true | _ => false end.

Definition is_ShutDown (e : Event) : bool :=
  match e with EShutDown => true | _ => false end.

Definition is_CtxDone (e : Event) : bool :=
  match e with ECtxDone => true | _ => false end.

Definition is_Get_or_Done (e : Event) : bool :=
  match e with EGet _ _ | EDone _ => true | _ => false end.

(** A call of the typed client or of the event recorder. *)
Definition is_client_or_recorder_call (e : Event) : bool :=
  match e with
  | EClientset _ _ _ _ _ | ERecorderEvent _ _ _ _ => true
  | _ => false
  end.

(** A worker holds one item at a time: in its [Get] and [Done] calls, every
    [Get] that hands out an item is followed at once by [Done] of that
    item, and a [Get] that reports shutdown is the last of them. *)
Fixpoint one_at_a_time (evs : list Event) : bool :=
  match evs with
  | [] => true
  | EGet x false :: EDone y :: rest => bool_decide (x = y) && one_at_a_time rest
  | [EGet _ true] => true
  | _ => false
  end.

(** The next [n] passes all dequeue [key] and [syncHandler] fails in each. *)
Fixpoint fails_in_a_row (env : Env) (key : string) (n : nat) (w : World) : bool :=
  match n with
  | O => true
  | S n' =>
      bool_decide (env_Get env w = (AString key, false))
      && match (syncHandler env key (after_Get env w)).1 with
         | Some _ => true
         | None => false
         end
      && fails_in_a_row env key n' (processNextWorkItem env w).2
  end.

(** ** Concrete collaborators, to run the controller on *)

Module Demo.

(** [strings.Split(s, "/")] *)
Fixpoint split_slash (s : string) : list string :=
  match s with
  | EmptyString => [""]
  | String c s' =>
      if Ascii.eqb c (Ascii.ascii_of_nat 47) then "" :: split_slash s'
      else match split_slash s' with
           | [] => [String c ""]
           | part :: parts => String c part :: parts
           end
  end.

(** client-go's [cache.SplitMetaNamespaceKey]: one part is a name, two parts
    are a namespace and a name, anything else is an error. *)
Definition cache_SplitMetaNamespaceKey (key : string) : (string * string) + error :=
  match split_slash key with
  | [name] => inl ("", name)
  | [namespace; name] => inl (namespace, name)
  | _ => inr (fmt_Errorf ("unexpected key format: " +:+ key))
  end.

(** client-go's [cache.MetaNamespaceKeyFunc] on an object with metadata;
    anything else has no metadata to read. *)
Definition cache_MetaNamespaceKeyFunc (w : World) (obj : Any) : string + error :=
  match obj with
  | APtr p =>
      match heap w !! p with
      | Some o =>
          let m := v1.objectMeta o in
          inl (if bool_decide (v1.Namespace m = "") then v1.Name m
               else v1.Namespace m +:+ "/" +:+ v1.Name m)
      | None => inr (fmt_Errorf "object has no meta")
      end
  | _ => inr (fmt_Errorf "object has no meta")
  end.

Definition fmt_GoSyntax (obj : Any) : string :=
  match obj with
  | AString s => s
  | AInt z => pretty z
  | APtr p => "&v1.SQLiteInstance{...}"
  | ANil => "<nil>"
  end.

Definition notFound (name : string) : error :=
  errors.mkError ("sqliteinstance " +:+ name +:+ " not found") true.

Definition unavailable : error :=
  errors.mkError "the server is currently unable to handle the request" false.

(** An environment where
    - the queue hands out [items] one by one and then reports shutdown,
    - the informer cache is the index [cache], unless [lister_fault] makes
      every lookup fail with that error,
    - the API server rejects the first [update_failures] status updates,
    - the informer has synced in time or not, as [synced] says. *)
Definition env (items : list Any) (cache : gmap (string * string) loc)
    (lister_fault : option error) (update_failures : nat) (synced : bool) : Env :=
  {| env_Get := fun w =>
       match items !! count_events is_Get (trace w) with
       | Some item => (item, false)
       | None => (ANil, true)
       end;
     SplitMetaNamespaceKey := cache_SplitMetaNamespaceKey;
     MetaNamespaceKeyFunc := cache_MetaNamespaceKeyFunc;
     env_listerGet := fun w namespace name =>
       match lister_fault with
       | Some err => inr err
       | None =>
           match cache !! (namespace, name) with
           | Some p => inl p
           | None => inr (notFound name)
           end
       end;
     env_UpdateStatus := fun w namespace o =>
       if decide (count_events is_clientset_call (trace w) < update_failures)%nat
       then Some unavailable else None;
     env_WaitForCacheSync := fun _ => synced;
     GoSyntax := fmt_GoSyntax;
     baseDelay := 5000000;
     maxDelay := 1000000000000 |}.

(** The object ns/foo, as the informer cache holds it at address 1. *)
Definition foo (phase : string) : v1.SQLiteInstance :=
  v1.mkSQLiteInstance
    (v1.mkTypeMeta "SQLiteInstance" "kubelitedb/v1")
    (v1.mkObjectMeta "foo" "ns" "41" 1 [("app", "demo")])
    (v1.mkSpec "app" "1Gi" 1)
    (v1.mkStatus phase).

Definition cache_foo : gmap (string * string) loc := {[ ("ns", "foo") := 1%nat ]}.

Definition world_foo (phase : string) : World :=
  mkWorld {[ 1%nat := foo phase ]} ∅ [].

(** A world without any object. *)
Definition world_empty : World := mkWorld ∅ ∅ [].

(** ns/foo is queued and cached, and every collaborator answers well. *)
Definition env_healthy : Env := env [AString "ns/foo"] cache_foo None 0 true.

(** ns/foo is queued, but the object is gone from the cache. *)
Definition env_deleted : Env := env [AString "ns/foo"] ∅ None 0 true.

(** A key of three parts is queued. *)
Definition env_malformed : Env := env [AString "a/b/c"] cache_foo None 0 true.

(** The lister fails with something other than not-found. *)
Definition env_lister_down : Env :=
  env [AString "ns/foo"] cache_foo (Some unavailable) 0 true.

(** The API server rejects the first two status updates. *)
Definition env_rejecting : Env :=
  env [AString "ns/foo"; AString "ns/foo"; AString "ns/foo"] cache_foo None 2 true.

(** Where [syncHandler] leaves the world when the first status update of
    ns/foo is rejected. *)
Definition world_rejected_once : World :=
  (syncHandler env_rejecting "ns/foo" (after_Get env_rejecting (world_foo "Unknown"))).2.

(** Something that is no string sits in the queue. *)
Definition env_not_string : Env := env [AInt 7] cache_foo None 0 true.

(** The informer cache never syncs before the context is cancelled. *)
Definition env_unsynced : Env := env [] cache_foo None 0 false.

(** ns/foo is still in the cache, but the API server has lost it: every
    status update is answered with a not-found error. *)
Definition env_gone_on_server : Env :=
  {| env_Get := env_Get env_healthy;
     SplitMetaNamespaceKey := SplitMetaNamespaceKey env_healthy;
     MetaNamespaceKeyFunc := MetaNamespaceKeyFunc env_healthy;
     env_listerGet := env_listerGet env_healthy;
     env_UpdateStatus := fun _ _ _ => Some (notFound "foo");
     env_WaitForCacheSync := env_WaitForCacheSync env_healthy;
     GoSyntax := GoSyntax env_healthy;
     baseDelay := baseDelay env_healthy;
     maxDelay := maxDelay env_healthy |}.

End Demo.

(** ** Lemmas on traces and on the heap *)

Lemma events_since_app (w w' : World) (evs : list Event) :
  trace w' = trace w ++ evs -> events_since w w' = evs.
Proof. intros H. unfold events_since. rewrite H. apply drop_app_length. Qed.

Lemma copy_of_fresh (w : World) (p : loc) :
  copy_of w p <> p /\ heap w !! copy_of w p = None.
Proof.
  pose proof (is_fresh ({[p]} ∪ dom (heap w))) as Hf.
  fold (copy_of w p) in Hf. split.
  - intros E. apply Hf. rewrite E. set_solver.
  - apply not_elem_of_dom. set_solver.
Qed.

Lemma heap_with_copy_old (w : World) (p l : loc) (o : v1.SQLiteInstance) :
  heap w !! l = Some o -> heap_with_copy w p !! l = Some o.
Proof.
  intros H. unfold heap_with_copy.
  destruct (copy_of_fresh w p) as [_ Hn].
  rewrite lookup_insert_ne; [done | congruence].
Qed.

Lemma heap_with_copy_new (w : World) (p : loc) :
  heap_with_copy w p !! copy_of w p = Some (running_copy w p).
Proof. apply lookup_insert_eq. Qed.

(** ** The controller, function by function *)

Lemma updateSQLiteInstanceStatus_eq (env : Env) (p : loc) (w : World) :
  updateSQLiteInstanceStatus env p w =
  let w1 := set_heap (heap_with_copy w p) w in
  let r := env_UpdateStatus env w1 (namespace_of w p) (running_copy w p) in
  (r, record_event (status_update w p r) w1).
Proof.
  unfold updateSQLiteInstanceStatus, clientset_UpdateStatus, DeepCopy,
    store_Status_Phase, load, mbind, M_bind. simpl.
  fold (copy_of w p).
  destruct (copy_of_fresh w p) as [Hne _].
  rewrite insert_insert_eq.
  rewrite !lookup_total_insert_eq.
  rewrite lookup_total_insert_ne by done.
  reflexivity.
Qed.

(** Bring a world built by a run of events to the form
    [mkWorld h f (trace w ++ evs)]. *)
Ltac norm_world :=
  unfold mret, M_ret, mbind, M_bind, recorder_Event, HandleError, logger_Info,
    workqueue.Done, workqueue.Forget, workqueue.AddRateLimited, workqueue.Add,
    workqueue.ShutDown, emit, record_event, set_failures, set_heap,
    world_at_update;
  cbn [fst snd heap failures trace];
  rewrite <- ?app_assoc;
  cbn [app].

Lemma syncHandler_outcome (env : Env) (key : string) (w : World) :
  sync_outcome env key w (syncHandler env key w).1 (syncHandler env key w).2.
Proof.
  unfold syncHandler.
  destruct (SplitMetaNamespaceKey env key) as [[namespace name]|e] eqn:ES.
  - unfold mbind, M_bind, lister_Get.
    destruct (env_listerGet env w namespace name) as [p|err] eqn:EL.
    + rewrite updateSQLiteInstanceStatus_eq. cbv zeta.
      change (set_heap (heap_with_copy ?w0 p) (record_event ?e ?w1))
        with (world_at_update w namespace name p).
      change (namespace_of (record_event ?e w) p) with (namespace_of w p).
      change (running_copy (record_event ?e w) p) with (running_copy w p).
      change (status_update (record_event ?e w) p) with (status_update w p).
      destruct (env_UpdateStatus env _ _ _) as [err|] eqn:EU; norm_world.
      * exact (sync_update_error env key w namespace name p err ES EL EU).
      * exact (sync_synced env key w namespace name p ES EL EU).
    + destruct (errors.IsNotFound err) eqn:EN; norm_world.
      * exact (sync_not_found env key w namespace name err ES EL EN).
      * exact (sync_lookup_error env key w namespace name err ES EL EN).
  - norm_world. exact (sync_malformed env key w e ES).
Qed.

Lemma after_Get_eq (env : Env) (w : World) (obj : Any) (shutdown : bool) :
  env_Get env w = (obj, shutdown) ->
  after_Get env w = mkWorld (heap w) (failures w) (trace w ++ [EGet obj shutdown]).
Proof. intros EG. unfold after_Get, workqueue.Get. rewrite EG. reflexivity. Qed.

Lemma processNextWorkItem_shutdown (env : Env) (w : World) (obj : Any) :
  env_Get env w = (obj, true) ->
  processNextWorkItem env w = (false, after_Get env w).
Proof.
  intros EG. unfold processNextWorkItem, after_Get, workqueue.Get, mbind, M_bind.
  rewrite EG. reflexivity.
Qed.

Lemma processNextWorkItem_not_string (env : Env) (w : World) (obj : Any) :
  env_Get env w = (obj, false) ->
  (forall key, obj <> AString key) ->
  processNextWorkItem env w =
  (true,
   mkWorld (heap w) (delete obj (failures w))
     (trace w ++ [EGet obj false; EForget obj;
                  EHandleError (fmt_Errorf ("expected string in workqueue but got " +:+
                                            GoSyntax env obj));
                  EDone obj])).
Proof.
  intros EG Hns.
  unfold processNextWorkItem, processItem, defer, workqueue.Get.
  unfold mbind at 1. unfold M_bind at 1. rewrite EG. cbn [fst snd].
  destruct obj as [key| | |]; [by destruct (Hns key) | | |]; norm_world; reflexivity.
Qed.

Lemma processNextWorkItem_sync_ok (env : Env) (w w2 : World) (key : string) :
  env_Get env w = (AString key, false) ->
  syncHandler env key (after_Get env w) = (None, w2) ->
  processNextWorkItem env w =
  (true,
   mkWorld (heap w2) (delete (AString key) (failures w2))
     (trace w2 ++ [EForget (AString key);
                   ELogInfo "Successfully synced" [AString "resourceName"; AString key];
                   EDone (AString key)])).
Proof.
  intros EG ES.
  unfold after_Get, workqueue.Get in ES. rewrite EG in ES. cbn [fst snd] in ES.
  unfold processNextWorkItem, processItem, defer, workqueue.Get.
  unfold mbind at 1. unfold M_bind at 1. rewrite EG. cbn [fst snd].
  unfold mbind, M_bind. rewrite ES.
  norm_world. reflexivity.
Qed.

Lemma processNextWorkItem_sync_error (env : Env) (w w2 : World) (key : string) (err : error) :
  env_Get env w = (AString key, false) ->
  syncHandler env key (after_Get env w) = (Some err, w2) ->
  processNextWorkItem env w =
  (true,
   mkWorld (heap w2)
     (<[AString key := S (workqueue.NumRequeues w2 (AString key))]> (failures w2))
     (trace w2 ++ [EAddRateLimited (AString key); EDone (AString key);
                   EHandleError (requeue_error key err)])).
Proof.
  intros EG ES.
  unfold after_Get, workqueue.Get in ES. rewrite EG in ES. cbn [fst snd] in ES.
  unfold processNextWorkItem, processItem, defer, workqueue.Get.
  unfold mbind at 1. unfold M_bind at 1. rewrite EG. cbn [fst snd].
  unfold mbind, M_bind. rewrite ES.
  norm_world. reflexivity.
Qed.

Lemma processNextWorkItem_outcome (env : Env) (w : World) :
  pass_outcome env w (processNextWorkItem env w).1 (processNextWorkItem env w).2.
Proof.
  destruct (env_Get env w) as [obj shutdown] eqn:EG.
  destruct shutdown.
  - rewrite (processNextWorkItem_shutdown env w obj EG),
      (after_Get_eq env w obj true EG).
    exact (pass_shutdown env w obj EG).
  - assert ((exists key, obj = AString key) \/ (forall key, obj <> AString key))
      as [[key ->]|Hns] by (destruct obj; eauto; right; congruence).
    + pose proof (syncHandler_outcome env key (after_Get env w)) as HS.
      destruct (syncHandler env key (after_Get env w)) as [[err|] w2] eqn:ES;
        cbn [fst snd] in HS.
      * rewrite (processNextWorkItem_sync_error env w w2 key err EG ES).
        exact (pass_sync_error env w key err w2 EG ES HS).
      * rewrite (processNextWorkItem_sync_ok env w w2 key EG ES).
        exact (pass_sync_ok env w key w2 EG ES HS).
    + rewrite (processNextWorkItem_not_string env w obj EG Hns).
      exact (pass_not_string env w obj EG Hns).
Qed.

(** Bring [events_since w w'] to the explicit list of events, given what
    [Get] answered in [w]. *)
Ltac explicit_events EG :=
  rewrite ?(after_Get_eq _ _ _ _ EG);
  cbn [heap failures trace];
  rewrite <- ?app_assoc;
  cbn [app];
  erewrite events_since_app by (cbn [trace]; reflexivity).

(** C7: for every item a non-shutdown [Get] hands out, the pass calls
    [Done] on that item exactly once and on no other item, whichever way
    the pass goes (not a string, malformed key, not found, sync error,
    success); [Done] is deferred, so it is the last call into the queue. *)
Theorem C7_Done_exactly_once (env : Env) (w : World) :
  (env_Get env w).2 = false ->
  let obj := (env_Get env w).1 in
  let evs := pass_events env w in
  filter is_Done evs = [EDone obj] /\
  last (filter is_queue_call evs) = Some (EDone obj).
Proof.
  intros Hsd obj evs. subst obj evs. unfold pass_events.
  destruct (processNextWorkItem_outcome env w) as [obj EG|obj EG Hns|key w2 EG ES HS|key err w2 EG ES HS];
    rewrite EG in Hsd |- *; cbn [fst snd] in Hsd |- *; try discriminate.
  - explicit_events EG. split; reflexivity.
  - inversion HS; subst; explicit_events EG; split; reflexivity.
  - inversion HS; subst; explicit_events EG; split; reflexivity.
Qed.

Lemma C7_Done_exactly_once_witness :
  (env_Get Demo.env_rejecting (Demo.world_foo "Unknown")).2 = false /\
  filter is_Done (pass_events Demo.env_rejecting (Demo.world_foo "Unknown"))
  = [EDone (AString "ns/foo")] /\
  last (filter is_queue_call (pass_events Demo.env_rejecting (Demo.world_foo "Unknown")))
  = Some (EDone (AString "ns/foo")).
Proof.
  split; [reflexivity|].
  apply (C7_Done_exactly_once Demo.env_rejecting (Demo.world_foo "Unknown")).
  reflexivity.
Defined.

(** C10: when the item handed out by the queue is not a string, the pass
    reports the error to the error sink, forgets the item, marks it done,
    in that order and nothing else: no lookup, no status update, no event,
    no requeue, so [syncHandler] is not run.  The pass returns true and the
    worker goes on. *)
Theorem C10_not_a_string_is_forgotten (env : Env) (w : World) (obj : Any) :
  env_Get env w = (obj, false) ->
  (forall key, obj <> AString key) ->
  (processNextWorkItem env w).1 = true /\
  pass_events env w =
    [EGet obj false; EForget obj;
     EHandleError (fmt_Errorf ("expected string in workqueue but got " +:+
                               GoSyntax env obj));
     EDone obj] /\
  filter is_requeue (pass_events env w) = [] /\
  filter is_lister_call (pass_events env w) = [] /\
  filter is_clientset_call (pass_events env w) = [] /\
  filter is_recorder_call (pass_events env w) = [] /\
  workqueue.NumRequeues (processNextWorkItem env w).2 obj = 0%nat /\
  heap (processNextWorkItem env w).2 = heap w.
Proof.
  intros EG Hns. unfold pass_events.
  rewrite (processNextWorkItem_not_string env w obj EG Hns). cbn [fst snd].
  erewrite events_since_app by (cbn [trace]; reflexivity).
  repeat split.
  unfold workqueue.NumRequeues. cbn [failures]. by rewrite lookup_delete_eq.
Qed.

Lemma C10_not_a_string_is_forgotten_witness :
  env_Get Demo.env_not_string Demo.world_empty = (AInt 7, false) /\
  (forall key, AInt 7 <> AString key) /\
  (processNextWorkItem Demo.env_not_string Demo.world_empty).1 = true /\
  pass_events Demo.env_not_string Demo.world_empty =
    [EGet (AInt 7) false; EForget (AInt 7);
     EHandleError (fmt_Errorf ("expected string in workqueue but got " +:+
                               GoSyntax Demo.env_not_string (AInt 7)));
     EDone (AInt 7)] /\
  filter is_requeue (pass_events Demo.env_not_string Demo.world_empty) = [] /\
  filter is_lister_call (pass_events Demo.env_not_string Demo.world_empty) = [] /\
  filter is_clientset_call (pass_events Demo.env_not_string Demo.world_empty) = [] /\
  filter is_recorder_call (pass_events Demo.env_not_string Demo.world_empty) = [] /\
  workqueue.NumRequeues (processNextWorkItem Demo.env_not_string Demo.world_empty).2
                        (AInt 7) = 0%nat /\
  heap (processNextWorkItem Demo.env_not_string Demo.world_empty).2 = heap Demo.world_empty.
Proof.
  split; [reflexivity|]. split; [discriminate|].
  apply (C10_not_a_string_is_forgotten Demo.env_not_string Demo.world_empty (AInt 7));
    [reflexivity | discriminate].
Defined.

Lemma syncHandler_dropped (env : Env) (w : World) (key : string) :
  malformed_or_not_found env w key = true ->
  exists evs,
    syncHandler env key w = (None, mkWorld (heap w) (failures w) (trace w ++ evs)) /\
    filter is_clientset_call evs = [] /\
    filter is_Forget evs = [] /\
    filter is_requeue evs = [].
Proof.
  intros Hgone. unfold malformed_or_not_found in Hgone.
  pose proof (syncHandler_outcome env key w) as HS.
  destruct (syncHandler env key w) as [r w2]. cbn [fst snd] in HS.
  inversion HS as [e Hs|ns name err Hs Hl Hn|ns name err Hs Hl Hn
                  |ns name p err Hs Hl Hu|ns name p Hs Hl Hu]; subst;
    rewrite Hs in Hgone; try rewrite Hl in Hgone; try congruence;
    eexists; (split; [reflexivity|]); done.
Qed.

(** The calls of a pass over a key that is malformed or whose object is
    not found. *)
Lemma dropped_key_pass (env : Env) (w : World) (key : string) :
  env_Get env w = (AString key, false) ->
  malformed_or_not_found env (after_Get env w) key = true ->
  exists evs,
    processNextWorkItem env w =
      (true,
       mkWorld (heap w) (delete (AString key) (failures w))
         (trace w ++ EGet (AString key) false :: evs ++
            [EForget (AString key);
             ELogInfo "Successfully synced" [AString "resourceName"; AString key];
             EDone (AString key)])) /\
    syncHandler env key (after_Get env w) =
      (None, mkWorld (heap w) (failures w) (trace (after_Get env w) ++ evs)) /\
    filter is_clientset_call evs = [] /\
    filter is_Forget evs = [] /\
    filter is_requeue evs = [].
Proof.
  intros EG Hgone.
  destruct (syncHandler_dropped env (after_Get env w) key Hgone)
    as (evs & ES & Hc & Hf & Hr).
  exists evs. rewrite (processNextWorkItem_sync_ok env w _ key EG ES).
  rewrite ES, (after_Get_eq env w _ _ EG). cbn [heap failures trace].
  rewrite <- !app_assoc. done.
Qed.

(** C1: a dequeued key that cannot be split, or whose object the lister
    does not find, is dropped: [syncHandler] returns nil and makes no call
    of the typed client, and the pass forgets the key, puts nothing back on
    the queue, and leaves the key with no retry counted. *)
Theorem C1_malformed_or_missing_key_is_dropped (env : Env) (w : World) (key : string) :
  env_Get env w = (AString key, false) ->
  malformed_or_not_found env (after_Get env w) key = true ->
  (syncHandler env key (after_Get env w)).1 = None /\
  filter is_clientset_call (sync_events env key (after_Get env w)) = [] /\
  (processNextWorkItem env w).1 = true /\
  filter is_clientset_call (pass_events env w) = [] /\
  filter is_Forget (pass_events env w) = [EForget (AString key)] /\
  filter is_requeue (pass_events env w) = [] /\
  workqueue.NumRequeues (processNextWorkItem env w).2 (AString key) = 0%nat.
Proof.
  intros EG Hgone. unfold pass_events, sync_events.
  destruct (dropped_key_pass env w key EG Hgone) as (evs & -> & -> & Hc & Hf & Hr).
  cbn [fst snd].
  erewrite !events_since_app by (cbn [trace]; reflexivity).
  rewrite !filter_cons, !filter_app, Hc, Hf, Hr.
  repeat split.
  unfold workqueue.NumRequeues. cbn [failures]. by rewrite lookup_delete_eq.
Qed.

Lemma C1_malformed_or_missing_key_is_dropped_witness :
  env_Get Demo.env_deleted Demo.world_empty = (AString "ns/foo", false) /\
  malformed_or_not_found Demo.env_deleted
    (after_Get Demo.env_deleted Demo.world_empty) "ns/foo" = true /\
  (syncHandler Demo.env_deleted "ns/foo" (after_Get Demo.env_deleted Demo.world_empty)).1
  = None /\
  filter is_clientset_call
    (sync_events Demo.env_deleted "ns/foo" (after_Get Demo.env_deleted Demo.world_empty))
  = [] /\
  (processNextWorkItem Demo.env_deleted Demo.world_empty).1 = true /\
  filter is_clientset_call (pass_events Demo.env_deleted Demo.world_empty) = [] /\
  filter is_Forget (pass_events Demo.env_deleted Demo.world_empty)
  = [EForget (AString "ns/foo")] /\
  filter is_requeue (pass_events Demo.env_deleted Demo.world_empty) = [] /\
  workqueue.NumRequeues (processNextWorkItem Demo.env_deleted Demo.world_empty).2
                        (AString "ns/foo") = 0%nat.
Proof.
  split; [reflexivity|]. split; [reflexivity|].
  apply (C1_malformed_or_missing_key_is_dropped Demo.env_deleted Demo.world_empty "ns/foo");
    reflexivity.
Defined.

(** The same on a key of three parts, which cannot be split. *)
Example malformed_key_is_dropped :
  malformed_or_not_found Demo.env_malformed
    (after_Get Demo.env_malformed (Demo.world_foo "Unknown")) "a/b/c" = true /\
  pass_events Demo.env_malformed (Demo.world_foo "Unknown") =
    [EGet (AString "a/b/c") false;
     EHandleError (fmt_Errorf "invalid resource key: a/b/c");
     EForget (AString "a/b/c");
     ELogInfo "Successfully synced" [AString "resourceName"; AString "a/b/c"];
     EDone (AString "a/b/c")].
Proof. split; reflexivity. Qed.

Lemma backoff_grows (base max : Z) (n : nat) :
  0 <= base -> workqueue.backoff base max n <= workqueue.backoff base max (S n).
Proof.
  intros Hb. unfold workqueue.backoff.
  apply Z.min_le_compat_r.
  rewrite Nat2Z.inj_succ, Z.pow_succ_r by lia.
  assert (0 < 2 ^ Z.of_nat n) by (apply Z.pow_pos_nonneg; lia).
  nia.
Qed.

(** C2: when [syncHandler] returns an error for the dequeued key, the pass
    calls [AddRateLimited] on the key, never [Forget], marks the key done
    and hands the wrapped error to the error sink; the failure count of the
    key goes up by one, so the next delay is no shorter.  The error is
    either the lister's (and not a not-found), or the one the status update
    was answered with. *)
Theorem C2_sync_error_is_requeued_with_backoff
    (env : Env) (w w2 : World) (key : string) (err : error) :
  env_Get env w = (AString key, false) ->
  syncHandler env key (after_Get env w) = (Some err, w2) ->
  0 <= baseDelay env ->
  let w' := (processNextWorkItem env w).2 in
  (processNextWorkItem env w).1 = true /\
  events_since w2 w' =
    [EAddRateLimited (AString key); EDone (AString key);
     EHandleError (requeue_error key err)] /\
  filter is_requeue (pass_events env w) = [EAddRateLimited (AString key)] /\
  filter is_Forget (pass_events env w) = [] /\
  workqueue.NumRequeues w' (AString key) = S (workqueue.NumRequeues w (AString key)) /\
  workqueue.nextDelay env w (AString key) <= workqueue.nextDelay env w' (AString key) /\
  exists namespace name,
    SplitMetaNamespaceKey env key = inl (namespace, name) /\
    ((env_listerGet env (after_Get env w) namespace name = inr err /\
      errors.IsNotFound err = false) \/
     (exists p,
        env_listerGet env (after_Get env w) namespace name = inl p /\
        last (events_since w w2) = Some (status_update (after_Get env w) p (Some err)))).
Proof.
  intros EG ES Hbase w'. subst w'. unfold pass_events.
  pose proof (syncHandler_outcome env key (after_Get env w)) as HS.
  rewrite ES in HS. cbn [fst snd] in HS.
  rewrite (processNextWorkItem_sync_error env w w2 key err EG ES). cbn [fst snd].
  split; [done|].
  split; [by apply events_since_app|].
  assert (workqueue.NumRequeues
            {| heap := heap w2;
               failures := <[AString key:=S (workqueue.NumRequeues w2 (AString key))]>
                             (failures w2);
               trace := trace w2 ++
                 [EAddRateLimited (AString key); EDone (AString key);
                  EHandleError (requeue_error key err)] |} (AString key)
          = S (workqueue.NumRequeues w2 (AString key))) as Hn.
  { unfold workqueue.NumRequeues at 1. cbn [failures]. by rewrite lookup_insert_eq. }
  assert (workqueue.NumRequeues w2 (AString key) = workqueue.NumRequeues w (AString key))
    as Hk.
  { unfold workqueue.NumRequeues.
    inversion HS; subst; rewrite (after_Get_eq env w _ _ EG); reflexivity. }
  split; [|split; [|split; [|split]]].
  - inversion HS; subst; explicit_events EG; reflexivity.
  - inversion HS; subst; explicit_events EG; reflexivity.
  - by rewrite Hn, Hk.
  - unfold workqueue.nextDelay. rewrite Hn, Hk. by apply backoff_grows.
  - inversion HS as [| |ns name err' Hs Hl Hnf|ns name p err' Hs Hl Hu|]; subst;
      exists ns, name; (split; [done|]).
    + by left.
    + right. exists p. split; [done|].
      explicit_events EG. reflexivity.
Qed.

Lemma C2_sync_error_is_requeued_with_backoff_witness :
  env_Get Demo.env_rejecting (Demo.world_foo "Unknown") = (AString "ns/foo", false) /\
  syncHandler Demo.env_rejecting "ns/foo"
    (after_Get Demo.env_rejecting (Demo.world_foo "Unknown"))
  = (Some Demo.unavailable, Demo.world_rejected_once) /\
  0 <= baseDelay Demo.env_rejecting /\
  (processNextWorkItem Demo.env_rejecting (Demo.world_foo "Unknown")).1 = true /\
  events_since Demo.world_rejected_once
    (processNextWorkItem Demo.env_rejecting (Demo.world_foo "Unknown")).2 =
    [EAddRateLimited (AString "ns/foo"); EDone (AString "ns/foo");
     EHandleError (requeue_error "ns/foo" Demo.unavailable)] /\
  filter is_requeue (pass_events Demo.env_rejecting (Demo.world_foo "Unknown"))
  = [EAddRateLimited (AString "ns/foo")] /\
  filter is_Forget (pass_events Demo.env_rejecting (Demo.world_foo "Unknown")) = [] /\
  workqueue.NumRequeues
    (processNextWorkItem Demo.env_rejecting (Demo.world_foo "Unknown")).2 (AString "ns/foo")
  = S (workqueue.NumRequeues (Demo.world_foo "Unknown") (AString "ns/foo")) /\
  workqueue.nextDelay Demo.env_rejecting (Demo.world_foo "Unknown") (AString "ns/foo")
  <= workqueue.nextDelay Demo.env_rejecting
       (processNextWorkItem Demo.env_rejecting (Demo.world_foo "Unknown")).2
       (AString "ns/foo") /\
  exists namespace name,
    SplitMetaNamespaceKey Demo.env_rejecting "ns/foo" = inl (namespace, name) /\
    ((env_listerGet Demo.env_rejecting
        (after_Get Demo.env_rejecting (Demo.world_foo "Unknown")) namespace name
      = inr Demo.unavailable /\
      errors.IsNotFound Demo.unavailable = false) \/
     (exists p,
        env_listerGet Demo.env_rejecting
          (after_Get Demo.env_rejecting (Demo.world_foo "Unknown")) namespace name
        = inl p /\
        last (events_since (Demo.world_foo "Unknown") Demo.world_rejected_once)
        = Some (status_update (after_Get Demo.env_rejecting (Demo.world_foo "Unknown"))
                              p (Some Demo.unavailable)))).
Proof.
  split; [reflexivity|]. split; [reflexivity|]. split; [done|].
  apply (C2_sync_error_is_requeued_with_backoff Demo.env_rejecting
           (Demo.world_foo "Unknown") Demo.world_rejected_once "ns/foo" Demo.unavailable);
    [reflexivity | reflexivity | done].
Defined.

(** The other kind of sync error: the lister itself fails. *)
Example lister_error_is_requeued :
  pass_events Demo.env_lister_down (Demo.world_foo "Unknown") =
    [EGet (AString "ns/foo") false;
     EListerGet "ns" "foo" (inr Demo.unavailable);
     EAddRateLimited (AString "ns/foo");
     EDone (AString "ns/foo");
     EHandleError (requeue_error "ns/foo" Demo.unavailable)].
Proof. reflexivity. Qed.

Lemma syncHandler_synced (env : Env) (w : World) (key namespace name : string) (p : loc) :
  SplitMetaNamespaceKey env key = inl (namespace, name) ->
  env_listerGet env w namespace name = inl p ->
  (updateSQLiteInstanceStatus env p (lister_Get env namespace name w).2).1 = None ->
  syncHandler env key w =
  (None,
   mkWorld (heap_with_copy w p) (failures w)
     (trace w ++ [EListerGet namespace name (inl p);
                  status_update w p None;
                  ERecorderEvent p EventTypeNormal SuccessSynced MessageResourceSynced])).
Proof.
  intros Hs Hl Hu.
  rewrite updateSQLiteInstanceStatus_eq in Hu. unfold lister_Get in Hu.
  rewrite Hl in Hu. cbn [fst snd] in Hu.
  change (env_UpdateStatus env (world_at_update w namespace name p)
            (namespace_of w p) (running_copy w p) = None) in Hu.
  pose proof (syncHandler_outcome env key w) as HS.
  destruct (syncHandler env key w) as [r w2]. cbn [fst snd] in HS.
  inversion HS as [e Hs'|ns' name' err Hs' Hl' Hn|ns' name' err Hs' Hl' Hn
                  |ns' name' p' err Hs' Hl' Hu'|ns' name' p' Hs' Hl' Hu'];
    subst; rewrite Hs in Hs'; simplify_eq; rewrite Hl in Hl'; simplify_eq.
  reflexivity.
Qed.

(** C3: when the object of the dequeued key is found and its status update
    succeeds, the pass records exactly one event, of type Normal and reason
    Synced, on the object the lister returned; it forgets the key and puts
    nothing back on the queue, so no failure is counted for the key any
    more and its next delay is the base delay. *)
Theorem C3_success_emits_Synced_and_forgets
    (env : Env) (w : World) (key namespace name : string) (p : loc) :
  env_Get env w = (AString key, false) ->
  SplitMetaNamespaceKey env key = inl (namespace, name) ->
  env_listerGet env (after_Get env w) namespace name = inl p ->
  (updateSQLiteInstanceStatus env p
     (lister_Get env namespace name (after_Get env w)).2).1 = None ->
  baseDelay env <= maxDelay env ->
  (processNextWorkItem env w).1 = true /\
  filter is_recorder_call (pass_events env w) =
    [ERecorderEvent p "Normal" "Synced" "SQLiteInstance synced successfully"] /\
  filter is_Forget (pass_events env w) = [EForget (AString key)] /\
  filter is_requeue (pass_events env w) = [] /\
  workqueue.NumRequeues (processNextWorkItem env w).2 (AString key) = 0%nat /\
  workqueue.nextDelay env (processNextWorkItem env w).2 (AString key) = baseDelay env.
Proof.
  intros EG Hs Hl Hu Hbase. unfold pass_events.
  pose proof (syncHandler_synced env (after_Get env w) key namespace name p Hs Hl Hu) as ES.
  rewrite (processNextWorkItem_sync_ok env w _ key EG ES). cbn [fst snd].
  split; [done|].
  split; [explicit_events EG; reflexivity|].
  split; [explicit_events EG; reflexivity|].
  split; [explicit_events EG; reflexivity|].
  unfold workqueue.nextDelay, workqueue.NumRequeues. cbn [failures].
  rewrite lookup_delete_eq. cbn [default].
  split; [done|].
  unfold workqueue.backoff. change (2 ^ Z.of_nat 0) with 1. lia.
Qed.

Lemma C3_success_emits_Synced_and_forgets_witness :
  env_Get Demo.env_healthy (Demo.world_foo "Pending") = (AString "ns/foo", false) /\
  SplitMetaNamespaceKey Demo.env_healthy "ns/foo" = inl ("ns", "foo") /\
  env_listerGet Demo.env_healthy (after_Get Demo.env_healthy (Demo.world_foo "Pending"))
                "ns" "foo" = inl 1%nat /\
  (updateSQLiteInstanceStatus Demo.env_healthy 1%nat
     (lister_Get Demo.env_healthy "ns" "foo"
        (after_Get Demo.env_healthy (Demo.world_foo "Pending"))).2).1 = None /\
  baseDelay Demo.env_healthy <= maxDelay Demo.env_healthy /\
  (processNextWorkItem Demo.env_healthy (Demo.world_foo "Pending")).1 = true /\
  filter is_recorder_call (pass_events Demo.env_healthy (Demo.world_foo "Pending")) =
    [ERecorderEvent 1%nat "Normal" "Synced" "SQLiteInstance synced successfully"] /\
  filter is_Forget (pass_events Demo.env_healthy (Demo.world_foo "Pending"))
  = [EForget (AString "ns/foo")] /\
  filter is_requeue (pass_events Demo.env_healthy (Demo.world_foo "Pending")) = [] /\
  workqueue.NumRequeues (processNextWorkItem Demo.env_healthy (Demo.world_foo "Pending")).2
                        (AString "ns/foo") = 0%nat /\
  workqueue.nextDelay Demo.env_healthy
    (processNextWorkItem Demo.env_healthy (Demo.world_foo "Pending")).2 (AString "ns/foo")
  = baseDelay Demo.env_healthy.
Proof.
  split; [reflexivity|]. split; [reflexivity|]. split; [reflexivity|].
  split; [reflexivity|]. split; [done|].
  apply (C3_success_emits_Synced_and_forgets Demo.env_healthy (Demo.world_foo "Pending")
           "ns/foo" "ns" "foo" 1%nat); [reflexivity .. | done].
Defined.

(** One pass starts with the answer of [Get] and asks the queue for no
    other item; it returns true unless the queue is shutting down. *)
Lemma processNextWorkItem_trace (env : Env) (w : World) :
  exists rest,
    trace (processNextWorkItem env w).2 =
      trace w ++ EGet (env_Get env w).1 (env_Get env w).2 :: rest /\
    Forall (fun e => is_Get e = false) rest /\
    (processNextWorkItem env w).1 = negb (env_Get env w).2 /\
    ((env_Get env w).2 = true -> rest = []).
Proof.
  destruct (processNextWorkItem_outcome env w)
    as [obj EG|obj EG Hns|key w2 EG ES HS|key err w2 EG ES HS];
    rewrite EG; cbn [fst snd negb].
  - exists []. repeat split; auto.
  - eexists. split; [reflexivity|]. split; [|split; [done|discriminate]].
    repeat constructor.
  - inversion HS; subst; rewrite (after_Get_eq _ _ _ _ EG);
      cbn [trace]; rewrite <- ?app_assoc; cbn [app];
      (eexists; split; [reflexivity|]; split; [|split; [done|discriminate]]);
      repeat constructor.
  - inversion HS; subst; rewrite (after_Get_eq _ _ _ _ EG);
      cbn [trace]; rewrite <- ?app_assoc; cbn [app];
      (eexists; split; [reflexivity|]; split; [|split; [done|discriminate]]);
      repeat constructor.
Qed.

Lemma no_Get_no_shutdown (evs : list Event) :
  Forall (fun e => is_Get e = false) evs ->
  existsb is_shutdown_Get evs = false /\ filter is_Get evs = [].
Proof.
  induction 1 as [|e evs He _ [IH1 IH2]]; [done|].
  cbn [existsb]. rewrite IH1, filter_cons, IH2.
  destruct e; try discriminate; done.
Qed.

Lemma runWorker_trace (env : Env) (fuel : nat) (w : World) :
  exists evs,
    trace (runWorker env fuel w).2 = trace w ++ evs /\
    (runWorker env fuel w).1 = existsb is_shutdown_Get evs /\
    ((runWorker env fuel w).1 = true -> exists obj, last evs = Some (EGet obj true)) /\
    ((runWorker env fuel w).1 = false -> length (filter is_Get evs) = fuel).
Proof.
  revert w. induction fuel as [|fuel IH]; intros w.
  - exists []. cbn. rewrite app_nil_r. repeat split; first [done | discriminate].
  - destruct (processNextWorkItem_trace env w) as (rest & Ht & Hrest & Hb & Hsd).
    cbn [runWorker]. unfold mbind, M_bind.
    destruct (processNextWorkItem env w) as [b w1]. cbn [fst snd] in Ht, Hb.
    destruct (env_Get env w) as [obj shutdown]. cbn [fst snd] in Ht, Hb, Hsd.
    destruct shutdown; cbn [negb] in Hb; subst b.
    + rewrite (Hsd eq_refl) in Ht.
      exists [EGet obj true]. cbn. repeat split; first [done | discriminate | eauto].
    + destruct (IH w1) as (evs & Ht' & Hr & Hlast & Hlen).
      destruct (no_Get_no_shutdown rest Hrest) as [Hex Hfil].
      exists (EGet obj false :: rest ++ evs).
      split; [rewrite Ht', Ht, <- app_assoc; reflexivity|].
      split; [cbn [existsb is_shutdown_Get]; by rewrite existsb_app, Hex|].
      split.
      * intros Htrue. destruct (Hlast Htrue) as [o Ho]. exists o.
        destruct evs as [|e evs]; [discriminate|].
        rewrite app_comm_cons, last_app, Ho. reflexivity.
      * intros Hfalse. rewrite filter_cons. cbn [is_Get].
        rewrite decide_True by done.
        cbn [length]. rewrite filter_app, Hfil. cbn [app]. by rewrite (Hlen Hfalse).
Qed.

Lemma runWorker_left (env : Env) (fuel more : nat) (w : World) :
  (runWorker env fuel w).1 = true ->
  runWorker env (fuel + more) w = runWorker env fuel w.
Proof.
  revert w. induction fuel as [|fuel IH]; intros w; [discriminate|].
  cbn [runWorker Nat.add]. unfold mbind, M_bind.
  destruct (processNextWorkItem env w) as [[] w1]; [apply IH | done].
Qed.

(** C8: a pass returns true whatever happens to the item, and false only
    when [Get] reports that the queue is shutting down.  So the worker loop
    is left exactly when a [Get] reported shutdown, and that report is the
    last thing the loop saw; as long as it has not been left, every one of
    its rounds handled an item; once it is left, more rounds change
    nothing. *)
Theorem C8_worker_stops_only_on_shutdown (env : Env) (fuel more : nat) (w : World) :
  (processNextWorkItem env w).1 = negb (env_Get env w).2 /\
  (runWorker env fuel w).1 =
    existsb is_shutdown_Get (events_since w (runWorker env fuel w).2) /\
  ((runWorker env fuel w).1 = true ->
   exists obj, last (events_since w (runWorker env fuel w).2) = Some (EGet obj true)) /\
  ((runWorker env fuel w).1 = false ->
   length (filter is_Get (events_since w (runWorker env fuel w).2)) = fuel) /\
  ((runWorker env fuel w).1 = true ->
   runWorker env (fuel + more) w = runWorker env fuel w).
Proof.
  split.
  - destruct (processNextWorkItem_trace env w) as (_ & _ & _ & Hb & _). exact Hb.
  - destruct (runWorker_trace env fuel w) as (evs & Ht & H1 & H2 & H3).
    rewrite (events_since_app _ _ _ Ht).
    split; [done|]. split; [done|]. split; [done|].
    apply runWorker_left.
Qed.

(** A worker over a queue that holds a key whose sync fails twice and then
    succeeds: no failure stops the loop, it is left at the fourth [Get],
    which reports shutdown; exactly one Synced event is recorded. *)
Example worker_survives_failures :
  runWorker Demo.env_rejecting 10 (Demo.world_foo "Unknown") =
    (true, (runWorker Demo.env_rejecting 4 (Demo.world_foo "Unknown")).2) /\
  (runWorker Demo.env_rejecting 3 (Demo.world_foo "Unknown")).1 = false /\
  filter is_queue_call
    (events_since (Demo.world_foo "Unknown")
       (runWorker Demo.env_rejecting 4 (Demo.world_foo "Unknown")).2) =
    [EGet (AString "ns/foo") false; EAddRateLimited (AString "ns/foo");
     EDone (AString "ns/foo");
     EGet (AString "ns/foo") false; EAddRateLimited (AString "ns/foo");
     EDone (AString "ns/foo");
     EGet (AString "ns/foo") false; EForget (AString "ns/foo");
     EDone (AString "ns/foo");
     EGet ANil true] /\
  filter is_recorder_call
    (events_since (Demo.world_foo "Unknown")
       (runWorker Demo.env_rejecting 4 (Demo.world_foo "Unknown")).2) =
    [ERecorderEvent 1%nat "Normal" "Synced" "SQLiteInstance synced successfully"].
Proof.
  split; [vm_compute; reflexivity|].
  split; [vm_compute; reflexivity|].
  split; vm_compute; reflexivity.
Qed.

Lemma enqueueSQLiteInstance_eq (env : Env) (obj : Any) (w : World) :
  enqueueSQLiteInstance env obj w =
  (tt, record_event (match MetaNamespaceKeyFunc env w obj with
                     | inl key => EAdd (AString key)
                     | inr err => EHandleError err
                     end) w).
Proof.
  unfold enqueueSQLiteInstance.
  destruct (MetaNamespaceKeyFunc env w obj); reflexivity.
Qed.

Lemma deliver_trace (env : Env) (ns : list Notification) (w : World) :
  exists evs,
    trace (deliver (NewController_handlers env) ns w).2 = trace w ++ evs /\
    length evs = length ns /\
    filter is_Add_or_HandleError evs = evs /\
    filter is_clientset_call evs = [] /\
    heap (deliver (NewController_handlers env) ns w).2 = heap w /\
    failures (deliver (NewController_handlers env) ns w).2 = failures w.
Proof.
  revert w. induction ns as [|n ns IH]; intros w.
  - exists []. cbn. by rewrite app_nil_r.
  - cbn [deliver]. unfold mbind, M_bind.
    assert (exists e, OnNotification (NewController_handlers env) n w = (tt, record_event e w)
                      /\ is_Add_or_HandleError e = true) as (e & -> & He).
    { destruct n as [obj|old obj|obj]; cbn; rewrite enqueueSQLiteInstance_eq;
        eexists; (split; [reflexivity|]);
        destruct (MetaNamespaceKeyFunc env w obj); reflexivity. }
    destruct (IH (record_event e w)) as (evs & Ht & Hlen & Hfil & Hcl & Hh & Hf).
    exists (e :: evs). rewrite Ht, Hh, Hf. cbn [record_event trace heap failures].
    rewrite <- app_assoc. cbn [app length]. rewrite Hlen.
    rewrite filter_cons, decide_True, Hfil by (by rewrite He).
    rewrite filter_cons, decide_False, Hcl by (destruct e; try discriminate He; cbn; tauto).
    done.
Qed.

(** C9: each of the three handlers registered by [NewController] derives
    the key of its payload and calls [Add] with it; the update handler
    looks at the new object only; when the key cannot be derived, the
    error goes to the error sink and nothing is enqueued.  Either way the
    handler returns, so a feed of notifications is worked off to its end,
    one [Add] or one reported error for each. *)
Theorem C9_handlers_enqueue_the_key
    (env : Env) (w : World) (old obj : Any) (ns : list Notification) :
  let h := NewController_handlers env in
  (forall key,
     MetaNamespaceKeyFunc env w obj = inl key ->
     AddFunc h obj w = (tt, record_event (EAdd (AString key)) w) /\
     UpdateFunc h old obj w = (tt, record_event (EAdd (AString key)) w) /\
     DeleteFunc h obj w = (tt, record_event (EAdd (AString key)) w)) /\
  (forall err,
     MetaNamespaceKeyFunc env w obj = inr err ->
     AddFunc h obj w = (tt, record_event (EHandleError err) w) /\
     UpdateFunc h old obj w = (tt, record_event (EHandleError err) w) /\
     DeleteFunc h obj w = (tt, record_event (EHandleError err) w)) /\
  (forall old', UpdateFunc h old' obj w = UpdateFunc h old obj w) /\
  length (events_since w (deliver h ns w).2) = length ns /\
  filter is_Add_or_HandleError (events_since w (deliver h ns w).2)
  = events_since w (deliver h ns w).2 /\
  heap (deliver h ns w).2 = heap w /\
  failures (deliver h ns w).2 = failures w.
Proof.
  intros h. subst h. cbn [AddFunc UpdateFunc DeleteFunc NewController_handlers].
  split; [|split; [|split]].
  - intros key Hk. rewrite enqueueSQLiteInstance_eq, Hk. done.
  - intros err He. rewrite enqueueSQLiteInstance_eq, He. done.
  - done.
  - destruct (deliver_trace env ns w) as (evs & Ht & Hlen & Hfil & _ & Hh & Hf).
    rewrite (events_since_app _ _ _ Ht). done.
Qed.

(** A feed of three notifications on a world that holds ns/foo: the
    payload of the second has no metadata, its error is reported, and the
    third is enqueued all the same; the old object of an update is not
    looked at. *)
Example bridge_drops_and_goes_on :
  events_since (Demo.world_foo "Running")
    (deliver (NewController_handlers Demo.env_healthy)
       [Added (APtr 1%nat); Deleted (AInt 3); Updated (AInt 3) (APtr 1%nat)]
       (Demo.world_foo "Running")).2 =
  [EAdd (AString "ns/foo");
   EHandleError (fmt_Errorf "object has no meta");
   EAdd (AString "ns/foo")].
Proof. vm_compute. reflexivity. Qed.

Lemma launchWorkers_eq (i : Z) (n : nat) (w : World) :
  launchWorkers i n w = (tt, mkWorld (heap w) (failures w) (trace w ++ launched i n)).
Proof.
  revert i w. induction n as [|n IH]; intros i w.
  - cbn. rewrite app_nil_r. by destruct w.
  - cbn [launchWorkers launched]. unfold mbind, M_bind, emit.
    rewrite IH. cbn [record_event heap failures trace].
    by rewrite <- app_assoc.
Qed.

Lemma launched_filter (i : Z) (n : nat) :
  filter is_Go (launched i n) = launched i n /\
  filter is_clientset_call (launched i n) = [] /\
  length (launched i n) = n.
Proof.
  revert i. induction n as [|n IH]; intros i; [done|].
  destruct (IH (i + 1)) as (H1 & H2 & H3).
  cbn [launched length]. rewrite !filter_cons. cbn [is_Go is_clientset_call].
  rewrite decide_True by done. rewrite decide_False by (cbn; tauto).
  by rewrite H1, H2, H3.
Qed.

Lemma Run_unsynced (env : Env) (workers : Z) (w : World) :
  env_WaitForCacheSync env (world_at_wait w) = false ->
  Run env workers w =
  (Some (fmt_Errorf "failed to wait for caches to sync"),
   mkWorld (heap w) (failures w)
     (trace w ++ [ELogInfo "Starting KubeLiteDB controller" [];
                  ELogInfo "Waiting for informer caches to sync" [];
                  EWaitForCacheSync false; EShutDown])).
Proof.
  intros Hw. unfold Run, defer, HandleCrash. norm_world.
  change (env_WaitForCacheSync env _) with (env_WaitForCacheSync env (world_at_wait w)).
  rewrite Hw. norm_world. reflexivity.
Qed.

Lemma Run_synced (env : Env) (workers : Z) (w : World) :
  env_WaitForCacheSync env (world_at_wait w) = true ->
  Run env workers w =
  (None,
   mkWorld (heap w) (failures w)
     (trace w ++ [ELogInfo "Starting KubeLiteDB controller" [];
                  ELogInfo "Waiting for informer caches to sync" [];
                  EWaitForCacheSync true;
                  ELogInfo "Starting workers" [AString "count"; AInt workers]] ++
                 launched 0 (Z.to_nat workers) ++
                 [ELogInfo "Started workers" []; ECtxDone;
                  ELogInfo "Shutting down workers" []; EShutDown])).
Proof.
  intros Hw. unfold Run, defer, HandleCrash. norm_world.
  change (env_WaitForCacheSync env _) with (env_WaitForCacheSync env (world_at_wait w)).
  rewrite Hw. norm_world. rewrite launchWorkers_eq. norm_world.
  cbn [app]. rewrite <- ?app_assoc. reflexivity.
Qed.

Lemma Run_structure (env : Env) (workers : Z) (w : World) :
  exists pre ok post,
    Run_events env workers w = pre ++ EWaitForCacheSync ok :: post /\
    ok = env_WaitForCacheSync env (world_at_wait w) /\
    filter is_Go pre = [] /\
    filter is_Go post = (if ok then launched 0 (Z.to_nat workers) else []).
Proof.
  exists [ELogInfo "Starting KubeLiteDB controller" [];
          ELogInfo "Waiting for informer caches to sync" []].
  exists (env_WaitForCacheSync env (world_at_wait w)).
  unfold Run_events.
  destruct (env_WaitForCacheSync env (world_at_wait w)) eqn:Hw.
  - rewrite (Run_synced env workers w Hw). cbn [fst snd].
    erewrite events_since_app by (cbn [trace]; reflexivity).
    eexists. split; [reflexivity|]. split; [done|]. split; [done|].
    destruct (launched_filter 0 (Z.to_nat workers)) as (Hg & _ & _).
    rewrite filter_cons, decide_False by (cbn; tauto).
    rewrite filter_app, Hg. cbn. by rewrite app_nil_r.
  - rewrite (Run_unsynced env workers w Hw). cbn [fst snd].
    erewrite events_since_app by (cbn [trace]; reflexivity).
    eexists. split; [reflexivity|]. done.
Qed.

(** C6: when the wait for the informer cache reports failure, [Run]
    returns the error and launches no worker (it still shuts the queue
    down).  In every run, nothing is launched before the wait has
    answered, and workers are launched, as many as asked for, only when it
    answered true. *)
Theorem C6_no_workers_without_cache_sync (env : Env) (workers : Z) (w : World) :
  env_WaitForCacheSync env (world_at_wait w) = false ->
  (Run env workers w).1 = Some (fmt_Errorf "failed to wait for caches to sync") /\
  filter is_Go (Run_events env workers w) = [] /\
  last (Run_events env workers w) = Some EShutDown /\
  forall workers' w',
    exists pre ok post,
      Run_events env workers' w' = pre ++ EWaitForCacheSync ok :: post /\
      filter is_Go pre = [] /\
      (filter is_Go post <> [] -> ok = true) /\
      (ok = true -> filter is_Go post = launched 0 (Z.to_nat workers')).
Proof.
  intros Hw. unfold Run_events at 1 2.
  rewrite (Run_unsynced env workers w Hw). cbn [fst snd].
  erewrite events_since_app by (cbn [trace]; reflexivity).
  split; [done|]. split; [done|]. split; [done|].
  intros workers' w'.
  destruct (Run_structure env workers' w') as (pre & ok & post & He & _ & Hpre & Hpost).
  exists pre, ok, post. split; [done|]. split; [done|].
  destruct ok; split; try done.
Qed.

Lemma C6_no_workers_without_cache_sync_witness :
  env_WaitForCacheSync Demo.env_unsynced (world_at_wait Demo.world_empty) = false /\
  (Run Demo.env_unsynced 2 Demo.world_empty).1
  = Some (fmt_Errorf "failed to wait for caches to sync") /\
  filter is_Go (Run_events Demo.env_unsynced 2 Demo.world_empty) = [] /\
  last (Run_events Demo.env_unsynced 2 Demo.world_empty) = Some EShutDown /\
  forall workers' w',
    exists pre ok post,
      Run_events Demo.env_unsynced workers' w' = pre ++ EWaitForCacheSync ok :: post /\
      filter is_Go pre = [] /\
      (filter is_Go post <> [] -> ok = true) /\
      (ok = true -> filter is_Go post = launched 0 (Z.to_nat workers')).
Proof.
  split; [reflexivity|].
  apply (C6_no_workers_without_cache_sync Demo.env_unsynced 2 Demo.world_empty).
  reflexivity.
Defined.

(** With a synced cache, two workers are launched after the wait, and
    [Run] returns nil once the context is done and the queue is shut down. *)
Example Run_launches_after_sync :
  Run_events Demo.env_healthy 2 Demo.world_empty =
    [ELogInfo "Starting KubeLiteDB controller" [];
     ELogInfo "Waiting for informer caches to sync" [];
     EWaitForCacheSync true;
     ELogInfo "Starting workers" [AString "count"; AInt 2];
     EGo 0; EGo 1;
     ELogInfo "Started workers" []; ECtxDone;
     ELogInfo "Shutting down workers" []; EShutDown] /\
  (Run Demo.env_healthy 2 Demo.world_empty).1 = None.
Proof. split; vm_compute; reflexivity. Qed.

Lemma Run_frame (env : Env) (workers : Z) (w : World) :
  heap (Run env workers w).2 = heap w /\
  filter is_clientset_call (Run_events env workers w) = [].
Proof.
  unfold Run_events.
  destruct (env_WaitForCacheSync env (world_at_wait w)) eqn:Hw.
  - rewrite (Run_synced env workers w Hw). cbn [fst snd heap].
    erewrite events_since_app by (cbn [trace]; reflexivity).
    destruct (launched_filter 0 (Z.to_nat workers)) as (_ & Hc & _).
    split; [done|]. by rewrite !filter_app, Hc.
  - rewrite (Run_unsynced env workers w Hw). cbn [fst snd heap].
    erewrite events_since_app by (cbn [trace]; reflexivity). done.
Qed.

(** Take a membership in an explicit list of events apart. *)
Ltac pick_event H :=
  rewrite ?elem_of_cons, ?elem_of_nil in H;
  repeat (destruct H as [H|H]); try discriminate; try contradiction.

(** C5: no part of the controller writes to an object that exists when it
    starts, so the object obtained from the Resource Store stays as it
    is.  Every call of the typed client is an [UpdateStatus]; the object it
    sends is a new one, made during the pass, different from the object the
    lister returned, and equal to it in everything but [Status.Phase].  The
    handlers and [Run] touch no object and call the typed client not at
    all. *)
Theorem C5_status_goes_to_a_copy
    (env : Env) (w : World) (ns : list Notification) (workers : Z) :
  (forall l o,
     heap w !! l = Some o -> heap (processNextWorkItem env w).2 !! l = Some o) /\
  (forall verb namespace q o res,
     EClientset verb namespace q o res ∈ pass_events env w ->
     verb = VUpdateStatus /\
     heap w !! q = None /\
     heap (processNextWorkItem env w).2 !! q = Some o /\
     exists namespace' name p,
       EListerGet namespace' name (inl p) ∈ pass_events env w /\
       q <> p /\
       v1.Status o = v1.mkStatus "Running" /\
       v1.Spec o = v1.Spec (heap w !!! p) /\
       v1.objectMeta o = v1.objectMeta (heap w !!! p) /\
       v1.typeMeta o = v1.typeMeta (heap w !!! p) /\
       namespace = v1.Namespace (v1.objectMeta (heap w !!! p))) /\
  heap (deliver (NewController_handlers env) ns w).2 = heap w /\
  filter is_clientset_call
    (events_since w (deliver (NewController_handlers env) ns w).2) = [] /\
  heap (Run env workers w).2 = heap w /\
  filter is_clientset_call (Run_events env workers w) = [].
Proof.
  split; [|split].
  - intros l o Hl.
    destruct (processNextWorkItem_outcome env w)
      as [obj EG|obj EG Hns|key w2 EG ES HS|key err w2 EG ES HS]; cbn [heap]; try done.
    + inversion HS; subst; rewrite ?(after_Get_eq _ _ _ _ EG); cbn [heap]; try done;
        by apply heap_with_copy_old.
    + inversion HS; subst; rewrite ?(after_Get_eq _ _ _ _ EG); cbn [heap]; try done;
        by apply heap_with_copy_old.
  - intros verb namespace q o res Hin. unfold pass_events in *.
    destruct (processNextWorkItem_outcome env w)
      as [obj EG|obj EG Hns|key w2 EG ES HS|key err w2 EG ES HS].
    + revert Hin. explicit_events EG. intros Hin. pick_event Hin.
    + revert Hin. explicit_events EG. intros Hin. pick_event Hin.
    + inversion HS as [e Hs|ns' name err' Hs Hl Hn|ns' name err' Hs Hl Hn
                      |ns' name p err' Hs Hl Hu|ns' name p Hs Hl Hu]; subst;
        revert Hin; explicit_events EG; intros Hin; pick_event Hin.
      unfold status_update in Hin. injection Hin as -> -> -> -> ->.
      destruct (copy_of_fresh w p) as [Hne Hnone].
      split; [done|]. split; [exact Hnone|].
      split; [apply (heap_with_copy_new w p)|].
      exists ns', name, p. split; [set_solver|]. done.
    + inversion HS as [e Hs|ns' name err' Hs Hl Hn|ns' name err' Hs Hl Hn
                      |ns' name p err' Hs Hl Hu|ns' name p Hs Hl Hu]; subst;
        revert Hin; explicit_events EG; intros Hin; pick_event Hin.
      unfold status_update in Hin. injection Hin as -> -> -> -> ->.
      destruct (copy_of_fresh w p) as [Hne Hnone].
      split; [done|]. split; [exact Hnone|].
      split; [apply (heap_with_copy_new w p)|].
      exists ns', name, p. split; [set_solver|]. done.
  - destruct (deliver_trace env ns w) as (evs & Ht & _ & _ & Hc & Hh & _).
    rewrite (events_since_app _ _ _ Ht).
    destruct (Run_frame env workers w). done.
Qed.

(** A successful pass over ns/foo: the object in the cache, at address 1,
    keeps its phase; the status update carries the copy at address 2. *)
Example cache_object_is_left_alone :
  heap (processNextWorkItem Demo.env_healthy (Demo.world_foo "Unknown")).2 !! 1%nat
  = Some (Demo.foo "Unknown") /\
  filter is_clientset_call (pass_events Demo.env_healthy (Demo.world_foo "Unknown"))
  = [EClientset VUpdateStatus "ns" 2%nat (Demo.foo "Running") None].
Proof. split; vm_compute; reflexivity. Qed.

Lemma written_phases_no_calls (evs : list Event) :
  filter is_clientset_call evs = [] -> written_phases evs = [].
Proof.
  induction evs as [|e evs IH]; [done|].
  rewrite filter_cons. destruct e; cbn; try done.
Qed.

(** C4, as the code has it: the state machine Unknown, Pending, Running is
    not what the controller follows.  Here a successful pass takes ns/foo
    from Unknown straight to Running, which is no step of that machine;
    the same pass takes an object with no phase, or one that is Pending,
    to Running as well. *)
Lemma C4_Unknown_goes_straight_to_Running :
  pass_transitions Demo.env_healthy (Demo.world_foo "Unknown") = [("Unknown", "Running")] /\
  spec_phase_step "Unknown" "Running" = false /\
  (syncHandler Demo.env_healthy "ns/foo"
     (after_Get Demo.env_healthy (Demo.world_foo "Unknown"))).1 = None /\
  pass_transitions Demo.env_healthy (Demo.world_foo "") = [("", "Running")] /\
  spec_phase_step "" "Running" = false /\
  pass_transitions Demo.env_healthy (Demo.world_foo "Pending") = [("Pending", "Running")].
Proof. repeat split; vm_compute; reflexivity. Qed.

(** C4, amended: the only phase the controller writes is Running.  A pass
    that finds the object writes it once, whatever the phase was before;
    no pass writes anything else.  A pass whose key is malformed or whose
    object is not found writes no status.  A status update the API server
    accepts occurs only in a pass whose [syncHandler] returns nil, after
    which the key is forgotten.  The handlers and [Run] write no status. *)
Theorem C4_the_only_phase_written_is_Running
    (env : Env) (w : World) (ns : list Notification) (workers : Z) :
  (written_phases (pass_events env w) = [] \/
   written_phases (pass_events env w) = ["Running"]) /\
  (forall key namespace name p,
     env_Get env w = (AString key, false) ->
     SplitMetaNamespaceKey env key = inl (namespace, name) ->
     env_listerGet env (after_Get env w) namespace name = inl p ->
     pass_transitions env w = [(v1.Phase (v1.Status (heap w !!! p)), "Running")]) /\
  (forall key,
     env_Get env w = (AString key, false) ->
     malformed_or_not_found env (after_Get env w) key = true ->
     written_phases (pass_events env w) = []) /\
  (forall namespace q o,
     EClientset VUpdateStatus namespace q o None ∈ pass_events env w ->
     exists key,
       env_Get env w = (AString key, false) /\
       (syncHandler env key (after_Get env w)).1 = None /\
       filter is_Forget (pass_events env w) = [EForget (AString key)]) /\
  written_phases (events_since w (deliver (NewController_handlers env) ns w).2) = [] /\
  written_phases (Run_events env workers w) = [].
Proof.
  split; [|split; [|split; [|split; [|split]]]].
  - unfold pass_events.
    destruct (processNextWorkItem_outcome env w)
      as [obj EG|obj EG Hns|key w2 EG ES HS|key err w2 EG ES HS].
    + explicit_events EG. by left.
    + explicit_events EG. by left.
    + inversion HS; subst; explicit_events EG; auto.
    + inversion HS; subst; explicit_events EG; auto.
  - intros key namespace name p EG Hs Hl. unfold pass_transitions, pass_events.
    destruct (processNextWorkItem_outcome env w)
      as [obj EG'|obj EG' Hns|key' w2 EG' ES HS|key' err w2 EG' ES HS];
      rewrite EG in EG'; simplify_eq.
    + by destruct (Hns key).
    + inversion HS as [e Hs'|ns' name' err' Hs' Hl' Hn|ns' name' err' Hs' Hl' Hn
                      |ns' name' p' err' Hs' Hl' Hu|ns' name' p' Hs' Hl' Hu]; subst;
        rewrite Hs in Hs'; simplify_eq; rewrite Hl in Hl'; simplify_eq.
      explicit_events EG. reflexivity.
    + inversion HS as [e Hs'|ns' name' err' Hs' Hl' Hn|ns' name' err' Hs' Hl' Hn
                      |ns' name' p' err' Hs' Hl' Hu|ns' name' p' Hs' Hl' Hu]; subst;
        rewrite Hs in Hs'; simplify_eq; rewrite Hl in Hl'; simplify_eq.
      explicit_events EG. reflexivity.
  - intros key EG Hgone.
    destruct (dropped_key_pass env w key EG Hgone) as (evs & Hp & _ & Hc & _).
    apply written_phases_no_calls. unfold pass_events. rewrite Hp. cbn [snd].
    erewrite events_since_app by (cbn [trace]; reflexivity).
    by rewrite filter_cons, filter_app, Hc.
  - intros namespace q o Hin. unfold pass_events in *.
    destruct (processNextWorkItem_outcome env w)
      as [obj EG|obj EG Hns|key w2 EG ES HS|key err w2 EG ES HS].
    + revert Hin. explicit_events EG. intros Hin. pick_event Hin.
    + revert Hin. explicit_events EG. intros Hin. pick_event Hin.
    + exists key. split; [done|]. rewrite ES. split; [done|].
      clear Hin. inversion HS; subst; explicit_events EG; reflexivity.
    + exfalso.
      inversion HS; subst; revert Hin; explicit_events EG; intros Hin; pick_event Hin.
  - destruct (deliver_trace env ns w) as (evs & Ht & _ & _ & Hc & _).
    rewrite (events_since_app _ _ _ Ht). by apply written_phases_no_calls.
  - destruct (Run_frame env workers w) as [_ Hc]. by apply written_phases_no_calls.
Qed.

(** ** Further properties of the reconciliation loop *)

(** X1: a pass over a string key looks the object up exactly once, under
    the namespace and name the key splits into; a key that cannot be split
    never reaches the lister. *)
Theorem X1_one_lookup_under_the_split_key (env : Env) (w : World) (key : string) :
  env_Get env w = (AString key, false) ->
  filter is_lister_call (pass_events env w) =
    match SplitMetaNamespaceKey env key with
    | inl (namespace, name) =>
        [EListerGet namespace name (env_listerGet env (after_Get env w) namespace name)]
    | inr _ => []
    end.
Proof.
  intros EG. unfold pass_events.
  destruct (processNextWorkItem_outcome env w)
    as [obj EG'|obj EG' Hns|key' w2 EG' ES HS|key' err w2 EG' ES HS];
    rewrite EG in EG'; simplify_eq.
  - by destruct (Hns key).
  - inversion HS as [e Hs|ns name err' Hs Hl Hn|ns name err' Hs Hl Hn
                    |ns name p err' Hs Hl Hu|ns name p Hs Hl Hu]; subst;
      rewrite Hs, ?Hl; explicit_events EG; reflexivity.
  - inversion HS as [e Hs|ns name err' Hs Hl Hn|ns name err' Hs Hl Hn
                    |ns name p err' Hs Hl Hu|ns name p Hs Hl Hu]; subst;
      rewrite Hs, ?Hl; explicit_events EG; reflexivity.
Qed.

Lemma X1_one_lookup_under_the_split_key_witness :
  env_Get Demo.env_deleted Demo.world_empty = (AString "ns/foo", false) /\
  filter is_lister_call (pass_events Demo.env_deleted Demo.world_empty) =
    match SplitMetaNamespaceKey Demo.env_deleted "ns/foo" with
    | inl (namespace, name) =>
        [EListerGet namespace name
           (env_listerGet Demo.env_deleted (after_Get Demo.env_deleted Demo.world_empty)
                          namespace name)]
    | inr _ => []
    end.
Proof.
  split; [reflexivity|].
  apply (X1_one_lookup_under_the_split_key Demo.env_deleted Demo.world_empty "ns/foo").
  reflexivity.
Defined.

Lemma syncHandler_update_error
    (env : Env) (w : World) (key namespace name : string) (p : loc) (err : error) :
  SplitMetaNamespaceKey env key = inl (namespace, name) ->
  env_listerGet env w namespace name = inl p ->
  (updateSQLiteInstanceStatus env p (lister_Get env namespace name w).2).1 = Some err ->
  syncHandler env key w =
  (Some err,
   mkWorld (heap_with_copy w p) (failures w)
     (trace w ++ [EListerGet namespace name (inl p); status_update w p (Some err)])).
Proof.
  intros Hs Hl Hu.
  rewrite updateSQLiteInstanceStatus_eq in Hu. unfold lister_Get in Hu.
  rewrite Hl in Hu. cbn [fst snd] in Hu.
  change (env_UpdateStatus env (world_at_update w namespace name p)
            (namespace_of w p) (running_copy w p) = Some err) in Hu.
  pose proof (syncHandler_outcome env key w) as HS.
  destruct (syncHandler env key w) as [r w2]. cbn [fst snd] in HS.
  inversion HS as [e Hs'|ns' name' err' Hs' Hl' Hn|ns' name' err' Hs' Hl' Hn
                  |ns' name' p' err' Hs' Hl' Hu'|ns' name' p' Hs' Hl' Hu'];
    subst; rewrite Hs in Hs'; simplify_eq; rewrite Hl in Hl'; simplify_eq.
  reflexivity.
Qed.

(** X2: when the status update of a found object fails, whatever the
    error, also a not-found that the lister path would have dropped,
    [syncHandler] returns that very error and records no event; the pass
    puts the key back with [AddRateLimited], does not forget it, and ends
    by handing the wrapped error, a plain error, to the error sink. *)
Theorem X2_failed_status_update_is_requeued
    (env : Env) (w : World) (key namespace name : string) (p : loc) (err : error) :
  env_Get env w = (AString key, false) ->
  SplitMetaNamespaceKey env key = inl (namespace, name) ->
  env_listerGet env (after_Get env w) namespace name = inl p ->
  (updateSQLiteInstanceStatus env p
     (lister_Get env namespace name (after_Get env w)).2).1 = Some err ->
  (syncHandler env key (after_Get env w)).1 = Some err /\
  filter is_client_or_recorder_call (pass_events env w)
  = [status_update (after_Get env w) p (Some err)] /\
  filter is_requeue (pass_events env w) = [EAddRateLimited (AString key)] /\
  filter is_Forget (pass_events env w) = [] /\
  last (pass_events env w) = Some (EHandleError (requeue_error key err)) /\
  errors.IsNotFound (requeue_error key err) = false.
Proof.
  intros EG Hs Hl Hu. unfold pass_events.
  pose proof (syncHandler_update_error env (after_Get env w) key namespace name p err
                Hs Hl Hu) as ES.
  rewrite (processNextWorkItem_sync_error env w _ key err EG ES), ES. cbn [fst snd].
  split; [done|].
  explicit_events EG. repeat split.
Qed.

Lemma X2_failed_status_update_is_requeued_witness :
  env_Get Demo.env_gone_on_server (Demo.world_foo "Unknown") = (AString "ns/foo", false) /\
  SplitMetaNamespaceKey Demo.env_gone_on_server "ns/foo" = inl ("ns", "foo") /\
  env_listerGet Demo.env_gone_on_server
    (after_Get Demo.env_gone_on_server (Demo.world_foo "Unknown")) "ns" "foo" = inl 1%nat /\
  (updateSQLiteInstanceStatus Demo.env_gone_on_server 1%nat
     (lister_Get Demo.env_gone_on_server "ns" "foo"
        (after_Get Demo.env_gone_on_server (Demo.world_foo "Unknown"))).2).1
  = Some (Demo.notFound "foo") /\
  errors.IsNotFound (Demo.notFound "foo") = true /\
  (syncHandler Demo.env_gone_on_server "ns/foo"
     (after_Get Demo.env_gone_on_server (Demo.world_foo "Unknown"))).1
  = Some (Demo.notFound "foo") /\
  filter is_client_or_recorder_call
    (pass_events Demo.env_gone_on_server (Demo.world_foo "Unknown"))
  = [status_update (after_Get Demo.env_gone_on_server (Demo.world_foo "Unknown"))
                   1%nat (Some (Demo.notFound "foo"))] /\
  filter is_requeue (pass_events Demo.env_gone_on_server (Demo.world_foo "Unknown"))
  = [EAddRateLimited (AString "ns/foo")] /\
  filter is_Forget (pass_events Demo.env_gone_on_server (Demo.world_foo "Unknown")) = [] /\
  last (pass_events Demo.env_gone_on_server (Demo.world_foo "Unknown"))
  = Some (EHandleError (requeue_error "ns/foo" (Demo.notFound "foo"))) /\
  errors.IsNotFound (requeue_error "ns/foo" (Demo.notFound "foo")) = false.
Proof.
  split; [reflexivity|]. split; [reflexivity|]. split; [reflexivity|].
  split; [reflexivity|]. split; [reflexivity|].
  apply (X2_failed_status_update_is_requeued Demo.env_gone_on_server
           (Demo.world_foo "Unknown") "ns/foo" "ns" "foo" 1%nat (Demo.notFound "foo"));
    reflexivity.
Defined.

(** X3: a pass that was handed an item ends in exactly one of two ways:
    it records the Synced event, or it reports one error to the error
    sink; never both, never neither, never two reports. *)
Theorem X3_either_Synced_or_one_error_report (env : Env) (w : World) :
  (env_Get env w).2 = false ->
  (length (filter is_HandleError (pass_events env w)) +
   length (filter is_recorder_call (pass_events env w)) = 1)%nat.
Proof.
  intros Hsd. unfold pass_events.
  destruct (processNextWorkItem_outcome env w)
    as [obj EG|obj EG Hns|key w2 EG ES HS|key err w2 EG ES HS];
    rewrite EG in Hsd; cbn [snd] in Hsd; try discriminate.
  - explicit_events EG. reflexivity.
  - inversion HS; subst; explicit_events EG; reflexivity.
  - inversion HS; subst; explicit_events EG; reflexivity.
Qed.

Lemma X3_either_Synced_or_one_error_report_witness :
  (env_Get Demo.env_healthy (Demo.world_foo "Unknown")).2 = false /\
  (length (filter is_HandleError (pass_events Demo.env_healthy (Demo.world_foo "Unknown"))) +
   length (filter is_recorder_call (pass_events Demo.env_healthy (Demo.world_foo "Unknown")))
   = 1)%nat.
Proof.
  split; [reflexivity|].
  apply (X3_either_Synced_or_one_error_report Demo.env_healthy (Demo.world_foo "Unknown")).
  reflexivity.
Defined.

(** X4: a key that is malformed, or whose object is not found, is reported
    once to the error sink, and yet the pass writes the info line
    "Successfully synced" for it, because [syncHandler] returned nil; no
    Synced event is recorded. *)
Theorem X4_dropped_key_is_logged_as_synced (env : Env) (w : World) (key : string) :
  env_Get env w = (AString key, false) ->
  malformed_or_not_found env (after_Get env w) key = true ->
  filter is_LogInfo (pass_events env w) =
    [ELogInfo "Successfully synced" [AString "resourceName"; AString key]] /\
  length (filter is_HandleError (pass_events env w)) = 1%nat /\
  filter is_recorder_call (pass_events env w) = [].
Proof.
  intros EG Hgone. unfold pass_events. unfold malformed_or_not_found in Hgone.
  destruct (processNextWorkItem_outcome env w)
    as [obj EG'|obj EG' Hns|key' w2 EG' ES HS|key' err w2 EG' ES HS];
    rewrite EG in EG'; simplify_eq.
  - by destruct (Hns key).
  - inversion HS as [e Hs|ns name err' Hs Hl Hn|ns name err' Hs Hl Hn
                    |ns name p err' Hs Hl Hu|ns name p Hs Hl Hu]; subst;
      rewrite Hs in Hgone; try rewrite Hl in Hgone; try congruence;
      explicit_events EG; repeat split.
  - inversion HS as [e Hs|ns name err' Hs Hl Hn|ns name err' Hs Hl Hn
                    |ns name p err' Hs Hl Hu|ns name p Hs Hl Hu]; subst;
      rewrite Hs in Hgone; try rewrite Hl in Hgone; congruence.
Qed.

Lemma X4_dropped_key_is_logged_as_synced_witness :
  env_Get Demo.env_malformed (Demo.world_foo "Unknown") = (AString "a/b/c", false) /\
  malformed_or_not_found Demo.env_malformed
    (after_Get Demo.env_malformed (Demo.world_foo "Unknown")) "a/b/c" = true /\
  filter is_LogInfo (pass_events Demo.env_malformed (Demo.world_foo "Unknown")) =
    [ELogInfo "Successfully synced" [AString "resourceName"; AString "a/b/c"]] /\
  length (filter is_HandleError (pass_events Demo.env_malformed (Demo.world_foo "Unknown")))
  = 1%nat /\
  filter is_recorder_call (pass_events Demo.env_malformed (Demo.world_foo "Unknown")) = [].
Proof.
  split; [reflexivity|]. split; [reflexivity|].
  apply (X4_dropped_key_is_logged_as_synced Demo.env_malformed (Demo.world_foo "Unknown")
           "a/b/c"); reflexivity.
Defined.

(** X5: after [Get], a pass calls the queue exactly twice more, both times
    on the item it was handed: [Forget] or [AddRateLimited], then [Done].
    It never calls plain [Add] or [ShutDown], [syncHandler] itself calls
    the queue not at all, and the failure count of every other item stays
    as it was. *)
Theorem X5_queue_calls_concern_the_item
    (env : Env) (w w0 : World) (item : Any) (key : string) :
  (env_Get env w).2 = false ->
  let obj := (env_Get env w).1 in
  (filter is_queue_call (pass_events env w) = [EGet obj false; EForget obj; EDone obj] \/
   filter is_queue_call (pass_events env w)
   = [EGet obj false; EAddRateLimited obj; EDone obj]) /\
  (item <> obj ->
   workqueue.NumRequeues (processNextWorkItem env w).2 item = workqueue.NumRequeues w item) /\
  filter is_queue_call (sync_events env key w0) = [] /\
  failures (syncHandler env key w0).2 = failures w0.
Proof.
  intros Hsd obj. subst obj. unfold pass_events, sync_events.
  split; [|split].
  - destruct (processNextWorkItem_outcome env w)
      as [obj EG|obj EG Hns|k w2 EG ES HS|k err w2 EG ES HS];
      rewrite EG in Hsd |- *; cbn [fst snd] in Hsd |- *; try discriminate.
    + explicit_events EG. by left.
    + inversion HS; subst; explicit_events EG; by left.
    + inversion HS; subst; explicit_events EG; by right.
  - intros Hne. unfold workqueue.NumRequeues.
    destruct (processNextWorkItem_outcome env w)
      as [obj EG|obj EG Hns|k w2 EG ES HS|k err w2 EG ES HS];
      rewrite EG in Hsd, Hne; cbn [fst snd] in Hsd, Hne; try discriminate;
      cbn [failures].
    + by rewrite lookup_delete_ne.
    + rewrite lookup_delete_ne by done.
      inversion HS; subst; by rewrite (after_Get_eq _ _ _ _ EG).
    + rewrite lookup_insert_ne by done.
      inversion HS; subst; by rewrite (after_Get_eq _ _ _ _ EG).
  - pose proof (syncHandler_outcome env key w0) as HS.
    destruct (syncHandler env key w0) as [r w2]. cbn [fst snd] in HS |- *.
    inversion HS; subst; cbn [failures];
      (erewrite events_since_app by (cbn [trace]; reflexivity)); done.
Qed.

Lemma X5_queue_calls_concern_the_item_witness :
  (env_Get Demo.env_rejecting (Demo.world_foo "Unknown")).2 = false /\
  (filter is_queue_call (pass_events Demo.env_rejecting (Demo.world_foo "Unknown"))
   = [EGet (env_Get Demo.env_rejecting (Demo.world_foo "Unknown")).1 false;
      EForget (env_Get Demo.env_rejecting (Demo.world_foo "Unknown")).1;
      EDone (env_Get Demo.env_rejecting (Demo.world_foo "Unknown")).1] \/
   filter is_queue_call (pass_events Demo.env_rejecting (Demo.world_foo "Unknown"))
   = [EGet (env_Get Demo.env_rejecting (Demo.world_foo "Unknown")).1 false;
      EAddRateLimited (env_Get Demo.env_rejecting (Demo.world_foo "Unknown")).1;
      EDone (env_Get Demo.env_rejecting (Demo.world_foo "Unknown")).1]) /\
  (AString "ns/bar" <> (env_Get Demo.env_rejecting (Demo.world_foo "Unknown")).1 ->
   workqueue.NumRequeues
     (processNextWorkItem Demo.env_rejecting (Demo.world_foo "Unknown")).2 (AString "ns/bar")
   = workqueue.NumRequeues (Demo.world_foo "Unknown") (AString "ns/bar")) /\
  filter is_queue_call (sync_events Demo.env_rejecting "ns/foo" Demo.world_empty) = [] /\
  failures (syncHandler Demo.env_rejecting "ns/foo" Demo.world_empty).2
  = failures Demo.world_empty.
Proof.
  split; [reflexivity|].
  apply (X5_queue_calls_concern_the_item Demo.env_rejecting (Demo.world_foo "Unknown")
           Demo.world_empty (AString "ns/bar") "ns/foo").
  reflexivity.
Defined.

(** X6: in any pass the calls of the typed client and of the recorder are
    none at all, or one rejected status update and nothing after it, or
    one accepted status update followed by the Synced event.  So no event
    is recorded unless the API server accepted the status just before, and
    a pass never updates twice. *)
Theorem X6_event_only_after_an_accepted_update (env : Env) (w : World) :
  filter is_client_or_recorder_call (pass_events env w) = [] \/
  (exists namespace q o err,
     filter is_client_or_recorder_call (pass_events env w)
     = [EClientset VUpdateStatus namespace q o (Some err)]) \/
  (exists namespace q o p,
     filter is_client_or_recorder_call (pass_events env w)
     = [EClientset VUpdateStatus namespace q o None;
        ERecorderEvent p "Normal" "Synced" "SQLiteInstance synced successfully"]).
Proof.
  unfold pass_events.
  destruct (processNextWorkItem_outcome env w)
    as [obj EG|obj EG Hns|k w2 EG ES HS|k err w2 EG ES HS].
  - explicit_events EG. by left.
  - explicit_events EG. by left.
  - inversion HS; subst; explicit_events EG; [by left | by left |].
    right. right. unfold status_update. eauto.
  - inversion HS; subst; explicit_events EG; [by left|].
    right. left. unfold status_update. eauto.
Qed.

Lemma NumRequeues_counted (h : gmap loc v1.SQLiteInstance) (f : gmap Any nat)
    (t : list Event) (item : Any) (n : nat) :
  workqueue.NumRequeues (mkWorld h (<[item := n]> f) t) item = n.
Proof. unfold workqueue.NumRequeues. cbn [failures]. by rewrite lookup_insert_eq. Qed.

Lemma failing_pass (env : Env) (w : World) (key : string) (err : error) :
  env_Get env w = (AString key, false) ->
  (syncHandler env key (after_Get env w)).1 = Some err ->
  exists evs,
    (processNextWorkItem env w).1 = true /\
    trace (processNextWorkItem env w).2 = trace w ++ evs /\
    filter is_Forget evs = [] /\
    filter is_requeue evs = [EAddRateLimited (AString key)] /\
    workqueue.NumRequeues (processNextWorkItem env w).2 (AString key)
    = S (workqueue.NumRequeues w (AString key)).
Proof.
  intros EG Hr.
  pose proof (syncHandler_outcome env key (after_Get env w)) as HS.
  destruct (syncHandler env key (after_Get env w)) as [r w2] eqn:ES.
  cbn [fst snd] in HS, Hr. subst r.
  rewrite (processNextWorkItem_sync_error env w w2 key err EG ES). cbn [fst snd].
  rewrite NumRequeues_counted. cbn [trace].
  assert (workqueue.NumRequeues w2 (AString key) = workqueue.NumRequeues w (AString key))
    as ->.
  { unfold workqueue.NumRequeues.
    inversion HS; subst; by rewrite (after_Get_eq _ _ _ _ EG). }
  inversion HS; subst; rewrite (after_Get_eq _ _ _ _ EG); cbn [trace];
    rewrite <- ?app_assoc; cbn [app];
    (eexists; split; [reflexivity|]; split; [reflexivity|]); done.
Qed.

Lemma fails_in_a_row_run (env : Env) (key : string) (n : nat) (w : World) :
  fails_in_a_row env key n w = true ->
  exists evs,
    trace (runWorker env n w).2 = trace w ++ evs /\
    (runWorker env n w).1 = false /\
    filter is_Forget evs = [] /\
    filter is_requeue evs = replicate n (EAddRateLimited (AString key)) /\
    workqueue.NumRequeues (runWorker env n w).2 (AString key)
    = (workqueue.NumRequeues w (AString key) + n)%nat.
Proof.
  revert w. induction n as [|n IH]; intros w Hf.
  - exists []. cbn. rewrite app_nil_r. repeat split; lia.
  - cbn [fails_in_a_row] in Hf.
    apply andb_prop in Hf as [Hf Hrest]. apply andb_prop in Hf as [HG Hs].
    apply bool_decide_eq_true_1 in HG.
    destruct (syncHandler env key (after_Get env w)).1 as [err|] eqn:Hr; [|discriminate].
    destruct (failing_pass env w key err HG Hr) as (evs1 & Hb & Ht & Hfo & Hrq & Hn).
    cbn [runWorker]. unfold mbind, M_bind.
    destruct (processNextWorkItem env w) as [b w1]. cbn [fst snd] in *. subst b.
    destruct (IH w1 Hrest) as (evs2 & Ht2 & Hb2 & Hfo2 & Hrq2 & Hn2).
    exists (evs1 ++ evs2).
    split; [by rewrite Ht2, Ht, app_assoc|].
    split; [done|].
    rewrite !filter_app, Hfo, Hfo2, Hrq, Hrq2, Hn2, Hn.
    repeat split. lia.
Qed.

(** X7: failures add up.  When the next [n] passes of a worker all dequeue
    the same key and [syncHandler] fails in each, the worker is still in
    its loop, has called [AddRateLimited] on the key [n] times and [Forget]
    never, and the key has [n] more failures counted, so its next delay is
    the backoff for that many failures. *)
Theorem X7_repeated_failures_add_up (env : Env) (key : string) (n : nat) (w : World) :
  fails_in_a_row env key n w = true ->
  (runWorker env n w).1 = false /\
  filter is_Forget (events_since w (runWorker env n w).2) = [] /\
  filter is_requeue (events_since w (runWorker env n w).2)
  = replicate n (EAddRateLimited (AString key)) /\
  workqueue.NumRequeues (runWorker env n w).2 (AString key)
  = (workqueue.NumRequeues w (AString key) + n)%nat /\
  workqueue.nextDelay env (runWorker env n w).2 (AString key)
  = workqueue.backoff (baseDelay env) (maxDelay env)
      (workqueue.NumRequeues w (AString key) + n).
Proof.
  intros Hf.
  destruct (fails_in_a_row_run env key n w Hf) as (evs & Ht & Hb & Hfo & Hrq & Hn).
  rewrite (events_since_app _ _ _ Ht). unfold workqueue.nextDelay. rewrite Hn. done.
Qed.

Lemma X7_repeated_failures_add_up_witness :
  fails_in_a_row Demo.env_rejecting "ns/foo" 2 (Demo.world_foo "Unknown") = true /\
  (runWorker Demo.env_rejecting 2 (Demo.world_foo "Unknown")).1 = false /\
  filter is_Forget
    (events_since (Demo.world_foo "Unknown")
       (runWorker Demo.env_rejecting 2 (Demo.world_foo "Unknown")).2) = [] /\
  filter is_requeue
    (events_since (Demo.world_foo "Unknown")
       (runWorker Demo.env_rejecting 2 (Demo.world_foo "Unknown")).2)
  = replicate 2 (EAddRateLimited (AString "ns/foo")) /\
  workqueue.NumRequeues (runWorker Demo.env_rejecting 2 (Demo.world_foo "Unknown")).2
                        (AString "ns/foo")
  = (workqueue.NumRequeues (Demo.world_foo "Unknown") (AString "ns/foo") + 2)%nat /\
  workqueue.nextDelay Demo.env_rejecting
    (runWorker Demo.env_rejecting 2 (Demo.world_foo "Unknown")).2 (AString "ns/foo")
  = workqueue.backoff (baseDelay Demo.env_rejecting) (maxDelay Demo.env_rejecting)
      (workqueue.NumRequeues (Demo.world_foo "Unknown") (AString "ns/foo") + 2).
Proof.
  split; [vm_compute; reflexivity|].
  apply (X7_repeated_failures_add_up Demo.env_rejecting "ns/foo" 2 (Demo.world_foo "Unknown")).
  vm_compute. reflexivity.
Defined.

Lemma pass_Get_and_Done (env : Env) (w : World) :
  exists evs,
    trace (processNextWorkItem env w).2 = trace w ++ evs /\
    (processNextWorkItem env w).1 = negb (env_Get env w).2 /\
    filter is_Get_or_Done evs =
      (if (env_Get env w).2 then [EGet (env_Get env w).1 true]
       else [EGet (env_Get env w).1 false; EDone (env_Get env w).1]).
Proof.
  destruct (processNextWorkItem_outcome env w)
    as [obj EG|obj EG Hns|key w2 EG ES HS|key err w2 EG ES HS];
    rewrite EG; cbn [fst snd negb].
  - eexists. split; [reflexivity|]. done.
  - eexists. split; [reflexivity|]. done.
  - inversion HS; subst; rewrite (after_Get_eq _ _ _ _ EG);
      cbn [trace]; rewrite <- ?app_assoc; cbn [app];
      (eexists; split; [reflexivity|]); done.
  - inversion HS; subst; rewrite (after_Get_eq _ _ _ _ EG);
      cbn [trace]; rewrite <- ?app_assoc; cbn [app];
      (eexists; split; [reflexivity|]); done.
Qed.

Lemma runWorker_Get_and_Done (env : Env) (fuel : nat) (w : World) :
  exists evs,
    trace (runWorker env fuel w).2 = trace w ++ evs /\
    one_at_a_time (filter is_Get_or_Done evs) = true.
Proof.
  revert w. induction fuel as [|fuel IH]; intros w.
  - exists []. cbn. by rewrite app_nil_r.
  - destruct (pass_Get_and_Done env w) as (evs1 & Ht & Hb & Hgd).
    cbn [runWorker]. unfold mbind, M_bind.
    destruct (processNextWorkItem env w) as [b w1]. cbn [fst snd] in Ht, Hb.
    destruct (env_Get env w) as [obj shutdown]. cbn [fst snd] in Hb, Hgd.
    destruct shutdown; cbn [negb] in Hb; subst b.
    + exists evs1. split; [done|]. by rewrite Hgd.
    + destruct (IH w1) as (evs2 & Ht2 & Hone).
      exists (evs1 ++ evs2). split; [by rewrite Ht2, Ht, app_assoc|].
      rewrite filter_app, Hgd. cbn [app one_at_a_time].
      by rewrite bool_decide_eq_true_2, Hone.
Qed.

(** X8: a worker holds one item at a time.  In the calls of a worker loop,
    each [Get] that hands out an item is followed by [Done] of that same
    item before the next [Get], and a [Get] that reports shutdown is the
    worker's last call of the two. *)
Theorem X8_worker_holds_one_item_at_a_time (env : Env) (fuel : nat) (w : World) :
  one_at_a_time
    (filter is_Get_or_Done (events_since w (runWorker env fuel w).2)) = true.
Proof.
  destruct (runWorker_Get_and_Done env fuel w) as (evs & Ht & Hone).
  by rewrite (events_since_app _ _ _ Ht).
Qed.

Lemma launched_only_Go (f : Event -> bool) (i : Z) (n : nat) :
  (forall j, f (EGo j) = false) -> filter f (launched i n) = [].
Proof.
  intros Hf. revert i. induction n as [|n IH]; intros i; [done|].
  cbn [launched]. rewrite filter_cons, decide_False, IH; [done|].
  rewrite Hf. cbn. tauto.
Qed.

(** X9: whichever way the wait for the cache ends, [Run] waits exactly
    once, reports nothing to the error sink, and shuts the queue down
    exactly once, as its last call.  It returns nil exactly when the wait
    succeeded; then it launches as many workers as asked for, none at all
    for a count of zero or less, and only after that blocks on the
    context, once, before the shutdown. *)
Theorem X9_Run_waits_once_and_shuts_down_last (env : Env) (workers : Z) (w : World) :
  let ok := env_WaitForCacheSync env (world_at_wait w) in
  (Run env workers w).1
  = (if ok then None else Some (fmt_Errorf "failed to wait for caches to sync")) /\
  filter is_WaitForCacheSync (Run_events env workers w) = [EWaitForCacheSync ok] /\
  filter is_HandleError (Run_events env workers w) = [] /\
  filter is_ShutDown (Run_events env workers w) = [EShutDown] /\
  last (Run_events env workers w) = Some EShutDown /\
  length (filter is_Go (Run_events env workers w)) = (if ok then Z.to_nat workers else 0%nat) /\
  (workers <= 0 -> filter is_Go (Run_events env workers w) = []) /\
  (ok = true ->
   exists pre,
     Run_events env workers w =
       pre ++ launched 0 (Z.to_nat workers) ++
       [ELogInfo "Started workers" []; ECtxDone;
        ELogInfo "Shutting down workers" []; EShutDown] /\
     filter is_CtxDone pre = [] /\ filter is_Go pre = []).
Proof.
  intros ok. subst ok. unfold Run_events.
  destruct (env_WaitForCacheSync env (world_at_wait w)) eqn:Hw.
  - rewrite (Run_synced env workers w Hw). cbn [fst snd].
    erewrite events_since_app by (cbn [trace]; reflexivity).
    destruct (launched_filter 0 (Z.to_nat workers)) as (Hg & _ & Hlen).
    rewrite !filter_app.
    rewrite (launched_only_Go is_WaitForCacheSync), (launched_only_Go is_HandleError),
      (launched_only_Go is_ShutDown) by done.
    rewrite Hg.
    split; [done|]. split; [done|]. split; [done|]. split; [done|].
    split; [by rewrite !app_assoc, last_app|].
    split; [cbn; rewrite app_nil_r; exact Hlen|].
    split.
    + intros Hle. rewrite (Z2Nat.nonpos workers Hle). done.
    + intros _. eexists. split; [reflexivity|]. done.
  - rewrite (Run_unsynced env workers w Hw). cbn [fst snd].
    erewrite events_since_app by (cbn [trace]; reflexivity).
    repeat split; try done.
Qed.

(** A count of minus three: nothing is launched, and [Run] still blocks
    on the context and returns nil. *)
Example Run_with_no_workers :
  Run_events Demo.env_healthy (-3) Demo.world_empty =
    [ELogInfo "Starting KubeLiteDB controller" [];
     ELogInfo "Waiting for informer caches to sync" [];
     EWaitForCacheSync true;
     ELogInfo "Starting workers" [AString "count"; AInt (-3)];
     ELogInfo "Started workers" []; ECtxDone;
     ELogInfo "Shutting down workers" []; EShutDown] /\
  (Run Demo.env_healthy (-3) Demo.world_empty).1 = None.
Proof. split; vm_compute; reflexivity. Qed.

(** X10: when [Get] reports that the queue is shutting down, the pass
    does nothing with what it was handed: no [Done], no [Forget], no
    lookup, no report; the trace grows by the [Get] alone and heap and
    failure counts are as before. *)
Theorem X10_shutdown_pass_touches_nothing (env : Env) (w : World) :
  (env_Get env w).2 = true ->
  processNextWorkItem env w =
    (false, mkWorld (heap w) (failures w) (trace w ++ [EGet (env_Get env w).1 true])) /\
  pass_events env w = [EGet (env_Get env w).1 true] /\
  filter is_Done (pass_events env w) = [] /\
  filter is_Forget (pass_events env w) = [] /\
  filter is_HandleError (pass_events env w) = [].
Proof.
  intros Hsd. unfold pass_events.
  destruct (env_Get env w) as [obj shutdown] eqn:EG. cbn [fst snd] in *. subst shutdown.
  rewrite (processNextWorkItem_shutdown env w obj EG), (after_Get_eq env w obj true EG).
  split; [done|]. cbn [snd].
  erewrite events_since_app by (cbn [trace]; reflexivity). done.
Qed.

Lemma X10_shutdown_pass_touches_nothing_witness :
  (env_Get Demo.env_unsynced (Demo.world_foo "Running")).2 = true /\
  processNextWorkItem Demo.env_unsynced (Demo.world_foo "Running") =
    (false,
     mkWorld (heap (Demo.world_foo "Running")) (failures (Demo.world_foo "Running"))
       (trace (Demo.world_foo "Running") ++
        [EGet (env_Get Demo.env_unsynced (Demo.world_foo "Running")).1 true])) /\
  pass_events Demo.env_unsynced (Demo.world_foo "Running")
  = [EGet (env_Get Demo.env_unsynced (Demo.world_foo "Running")).1 true] /\
  filter is_Done (pass_events Demo.env_unsynced (Demo.world_foo "Running")) = [] /\
  filter is_Forget (pass_events Demo.env_unsynced (Demo.world_foo "Running")) = [] /\
  filter is_HandleError (pass_events Demo.env_unsynced (Demo.world_foo "Running")) = [].
Proof.
  split; [reflexivity|].
  apply (X10_shutdown_pass_touches_nothing Demo.env_unsynced (Demo.world_foo "Running")).
  reflexivity.
Defined.
